(** * Barcode/QR Code Generator API

    A shallow embedding of [api_generator.py]: the two pydantic request
    models, the two image helpers with their [try]/[except] blocks, the two
    POST endpoints, and the part of FastAPI that turns a request body into a
    call of an endpoint and an exception into a response.

    The imaging libraries ([qrcode], [barcode], Pillow) are external
    collaborators.  Their calls are the fields of two interfaces, so every
    statement about the handlers holds for every behaviour of the libraries;
    what [qrcode] does with [make(fit=True)] is modelled separately in the
    module [qrcode] below. *)

From stdpp Require Import base strings list gmap.
From Stdlib Require Import ZArith Lia DecimalString.
From Equations Require Import Equations.

Local Open Scope Z_scope.
#[local] Set Warnings "-register-all".

(** ** Python values

    A [str] is the [string] of its UTF-8 encoding, the form in which it
    arrives in the JSON body: comparing and concatenating, which is what the
    handlers do with strings, are the same on the encoding.  A [bytes] is a
    list of bytes, an [int] is a [Z]. *)

Abbreviation bytes := (list Byte.byte).

(** The double quote character, for the f-strings that contain one. *)
Definition dq : string := String (Ascii.ascii_of_nat 34) EmptyString.

(** [s.encode("latin-1")] succeeds when every code point of [s] is below 256.
    In UTF-8 these are the bytes below 128 and the two-byte sequences that
    begin with 0xC2 or 0xC3. *)
Definition is_continuation (c : Ascii.ascii) : bool :=
  let n := Ascii.nat_of_ascii c in ((128 <=? n) && (n <? 192))%nat.

Fixpoint latin1_encodable (s : string) : bool :=
  match s with
  | EmptyString => true
  | String c s' =>
      let n := Ascii.nat_of_ascii c in
      if (n <? 128)%nat then latin1_encodable s'
      else if ((n =? 194) || (n =? 195))%nat then
        match s' with
        | String c' s'' => is_continuation c' && latin1_encodable s''
        | EmptyString => false
        end
      else false
  end.

(** [str(n)] for an [int]. *)
Definition str_int (n : Z) : string := NilZero.string_of_int (Z.to_int n).

(** [sep.join(l)]. *)
Fixpoint join (sep : string) (l : list string) : string :=
  match l with
  | [] => ""
  | x :: l' =>
      match l' with
      | [] => x
      | _ :: _ => x +:+ sep +:+ join sep l'
      end
  end.

(** Values of a JSON body that reach the [options] dict. *)
Inductive json : Type :=
| JNull
| JBool (b : bool)
| JInt (n : Z)
| JStr (s : string)
| JList (l : list json)
| JDict (l : list (string * json)).

(** [io.BytesIO]: the buffer and the stream position. *)
Record BytesIO : Type := { getvalue : bytes; tell : nat }.

Definition BytesIO_new : BytesIO := {| getvalue := []; tell := 0 |}.

(** [f.write(b)]: overwrite at the position, padding with zero bytes when the
    position is past the end. *)
Definition BytesIO_write (b : bytes) (f : BytesIO) : BytesIO :=
  {| getvalue :=
       take (tell f) (getvalue f)
       ++ replicate (tell f - length (getvalue f))%nat Byte.x00
       ++ b
       ++ drop (tell f + length b)%nat (getvalue f);
     tell := (tell f + length b)%nat |}.

Definition BytesIO_seek (pos : nat) (f : BytesIO) : BytesIO :=
  {| getvalue := getvalue f; tell := pos |}.

(** What iterating over the file object yields in total: the bytes from the
    position to the end. *)
Definition BytesIO_read (f : BytesIO) : bytes := drop (tell f) (getvalue f).

(** ** Exceptions

    Only subclasses of [Exception] are modelled.  [BarcodeError] stands for
    [barcode.errors.BarcodeError] and its subclasses, [PyException] for every
    other class; their [msg] is what [str(e)] returns. *)
Inductive exn : Type :=
| HTTPException (status_code : Z) (detail : string)
| BarcodeError (msg : string)
| PyException (cls : string) (msg : string).

(** The classes named in the [except] clauses of the source. *)
Inductive exn_class : Type := cls_BarcodeError | cls_Exception.

Definition isinstance (e : exn) (c : exn_class) : bool :=
  match c, e with
  | cls_Exception, _ => true
  | cls_BarcodeError, BarcodeError _ => true
  | cls_BarcodeError, _ => false
  end.

(** [str(e)] of an [HTTPException] is Starlette's and has changed between
    releases, so it is a parameter of the development. *)
Class Framework : Type := { HTTPException_str : Z → string → string }.

Definition str_exn `{Framework} (e : exn) : string :=
  match e with
  | HTTPException s d => HTTPException_str s d
  | BarcodeError msg => msg
  | PyException _ msg => msg
  end.

(** The [UnicodeEncodeError] of [encode("latin-1")].  Its message names the
    character and its position; it is cut to its last part here, as nothing
    in the application reads it. *)
Definition UnicodeEncodeError : exn :=
  PyException "UnicodeEncodeError" "ordinal not in range(256)".

Definition HTTP_400_BAD_REQUEST : Z := 400.
Definition HTTP_422_UNPROCESSABLE_ENTITY : Z := 422.
Definition HTTP_500_INTERNAL_SERVER_ERROR : Z := 500.

(** ** Calls into the imaging libraries

    Each call the handlers make is recorded, in order, with its arguments. *)
Inductive call : Type :=
| call_QRCode (version error_correction box_size border : Z)
| call_add_data (data : string)
| call_make (fit : bool)
| call_make_image (fill_color back_color : string)
| call_save (format : string)
| call_barcode_get (name : string)
| call_barcode_class (data : string)
| call_write (options : gmap string json).

(** ** The monad of the handlers: an exception or a value, and the calls made *)
Definition M (A : Type) : Type := list call → (exn + A) * list call.

Definition ret {A} (a : A) : M A := λ t, (inr a, t).

Definition bind {A B} (m : M A) (k : A → M B) : M B :=
  λ t, match m t with
       | (inl e, t') => (inl e, t')
       | (inr a, t') => k a t'
       end.

Definition raise {A} (e : exn) : M A := λ t, (inl e, t).

(** A call of a library function with result [r]. *)
Definition extern {A} (c : call) (r : exn + A) : M A := λ t, (r, t ++ [c]).

(** [try: body except C1 as e: h1 e except C2 as e: h2 e]: the first clause
    whose class the exception is an instance of handles it; an exception
    raised by a handler is not handled again. *)
Fixpoint handle {A} (handlers : list (exn_class * (exn → M A))) (e : exn) : M A :=
  match handlers with
  | [] => raise e
  | (c, h) :: rest => if isinstance e c then h e else handle rest e
  end.

Definition try_except {A} (body : M A) (handlers : list (exn_class * (exn → M A))) : M A :=
  λ t, match body t with
       | (inl e, t') => handle handlers e t'
       | (inr a, t') => (inr a, t')
       end.

Declare Scope py_scope.
Delimit Scope py_scope with py.
Notation "x <- c ;; k" := (bind c (λ x, k))
  (at level 100, c at next level, right associativity) : py_scope.
Notation "c ;;; k" := (bind c (λ _, k))
  (at level 100, right associativity) : py_scope.

(** ** The imaging libraries, by interface

    [qrcode]: the constructor, [add_data], [make], [make_image], and the
    image's [save], which writes bytes to the stream it is given and may raise
    after having written some of them. *)
Class QRLibrary : Type := {
  QRCodeObj : Type;
  QRImage : Type;
  lib_QRCode : Z → Z → Z → Z → exn + QRCodeObj;
  lib_add_data : QRCodeObj → string → exn + QRCodeObj;
  lib_make : QRCodeObj → bool → exn + QRCodeObj;
  lib_make_image : QRCodeObj → string → string → exn + QRImage;
  lib_save : QRImage → string → bytes * option exn
}.

(** [barcode]: [barcode.get(name, writer=ImageWriter())], the call of the
    class it returns, and the instance's [write]. *)
Class BarcodeLibrary : Type := {
  BarcodeClass : Type;
  BarcodeObj : Type;
  lib_barcode_get : string → exn + BarcodeClass;
  lib_barcode_class : BarcodeClass → string → exn + BarcodeObj;
  lib_write : BarcodeObj → gmap string json → bytes * option exn
}.

(** [qrcode.constants.ERROR_CORRECT_H]. *)
Definition ERROR_CORRECT_H : Z := 2.

(** A library call that writes [r.1] to the stream [f] and then raises [r.2]
    or returns.  When it raises, the stream, a local of the helper, is
    unreachable together with whatever was written to it. *)
Definition writing (c : call) (r : bytes * option exn) (f : BytesIO) : M BytesIO :=
  λ t, (match r.2 with
        | Some e => inl e
        | None => inr (BytesIO_write r.1 f)
        end, t ++ [c]).

(** ** Pydantic models *)

(** One entry of a validation error: the location of the field and what was
    wrong with it. *)
Inductive error_type : Type :=
| Missing
| NotGe (bound : Z)
| NotLe (bound : Z).

Record ErrorDetails : Type := { loc : list string; type : error_type }.

Definition required {A} (name : string) (v : option A) : list ErrorDetails :=
  match v with
  | None => [{| loc := ["body"; name]; type := Missing |}]
  | Some _ => []
  end.

(** [Field(..., ge=bound)] *)
Definition Field_ge (name : string) (bound : Z) (v : option Z) : list ErrorDetails :=
  match v with
  | Some x => if x <? bound then [{| loc := ["body"; name]; type := NotGe bound |}] else []
  | None => []
  end.

(** [Field(..., le=bound)] *)
Definition Field_le (name : string) (bound : Z) (v : option Z) : list ErrorDetails :=
  match v with
  | Some x => if bound <? x then [{| loc := ["body"; name]; type := NotLe bound |}] else []
  | None => []
  end.

Module QRCodeRequest.
(** The JSON body as sent: a field is absent or has a value of the declared
    type.  (Values of another type are outside this model.) *)
Record body : Type := {
  j_data : option string;
  j_filename : option string;
  j_fill_color : option string;
  j_back_color : option string;
  j_version : option Z;
  j_box_size : option Z;
  j_border : option Z
}.

Record t : Type := {
  data : string;
  filename : string;
  fill_color : string;
  back_color : string;
  version : Z;
  box_size : Z;
  border : Z
}.

Definition errors (b : body) : list ErrorDetails :=
  required "data" (j_data b)
  ++ Field_ge "version" 1 (j_version b) ++ Field_le "version" 40 (j_version b)
  ++ Field_ge "box_size" 1 (j_box_size b)
  ++ Field_ge "border" 0 (j_border b).

Definition validate (b : body) : list ErrorDetails + t :=
  match errors b, j_data b with
  | [], Some d =>
      inr {| data := d;
             filename := default "qrcode.png" (j_filename b);
             fill_color := default "black" (j_fill_color b);
             back_color := default "white" (j_back_color b);
             version := default 1 (j_version b);
             box_size := default 10 (j_box_size b);
             border := default 4 (j_border b) |}
  | errs, _ => inl errs
  end.
End QRCodeRequest.

Module BarcodeRequest.
Record body : Type := {
  j_barcode_type : option string;
  j_data : option string;
  j_filename : option string;
  j_options : option (gmap string json)
}.

Record t : Type := {
  barcode_type : string;
  data : string;
  filename : string;
  options : gmap string json
}.

Definition errors (b : body) : list ErrorDetails :=
  required "barcode_type" (j_barcode_type b) ++ required "data" (j_data b).

Definition validate (b : body) : list ErrorDetails + t :=
  match errors b, j_barcode_type b, j_data b with
  | [], Some ty, Some d =>
      inr {| barcode_type := ty;
             data := d;
             filename := default "barcode.png" (j_filename b);
             options := default ∅ (j_options b) |}
  | errs, _, _ => inl errs
  end.
End BarcodeRequest.

(** ** Responses *)

Inductive content : Type :=
| Detail (detail : string)               (* {"detail": "..."} *)
| Errors (errors : list ErrorDetails)    (* {"detail": [...]} *)
| Content (value : json).

(** The responses of the application, as it hands them to the server.  A
    [StreamingResponse] has the status 200 and the headers it was given, as
    strings.  [ServerError] is the framework's answer to an exception that
    no handler takes: the status 500 and the text "Internal Server Error". *)
Inductive Response : Type :=
| StreamingResponse (stream : BytesIO) (media_type : string) (headers : gmap string string)
| JSONResponse (status_code : Z) (body : content)
| EmptyResponse (status_code : Z)
| ServerError.

Definition status (r : Response) : Z :=
  match r with
  | StreamingResponse _ _ _ => 200
  | JSONResponse s _ => s
  | EmptyResponse s => s
  | ServerError => 500
  end.

(** The image bytes a response carries, if it carries any. *)
Definition image_body (r : Response) : option bytes :=
  match r with
  | StreamingResponse f _ _ => Some (BytesIO_read f)
  | _ => None
  end.

Definition header (name : string) (r : Response) : option string :=
  match r with
  | StreamingResponse _ _ hs => hs !! name
  | _ => None
  end.

(** ** The helpers and the endpoints *)

(** [x in l] for a list of strings: [x == y] for some element [y]. *)
Definition py_in (x : string) (l : list string) : bool := existsb (String.eqb x) l.

Definition supported_barcode_types : list string :=
  ["ean8"; "ean13"; "upca"; "jan"; "isbn10"; "isbn13"; "issn";
   "code39"; "code128"; "pzn"; "gs1"].

(** The four f-strings of the [detail]s. *)
Definition unsupported_detail (barcode_type : string) : string :=
  "Unsupported barcode type: '" +:+ barcode_type +:+ "'. Supported types: "
  +:+ join ", " supported_barcode_types.

Definition invalid_data_detail (barcode_type cause : string) : string :=
  "Invalid data for barcode type '" +:+ barcode_type +:+ "': " +:+ cause
  +:+ ". Please check data format and length.".

Definition barcode_failure_detail (cause : string) : string :=
  "Failed to generate barcode: " +:+ cause.

Definition qr_failure_detail (cause : string) : string :=
  "Failed to generate QR Code: " +:+ cause.

(** The f-string of the [Content-Disposition] header. *)
Definition content_disposition (filename : string) : string :=
  "inline; filename=" +:+ dq +:+ filename +:+ dq.

(** The requests the application routes. *)
Inductive request : Type :=
| POST_generate_qr (b : QRCodeRequest.body)
| POST_generate_barcode (b : BarcodeRequest.body)
| GET_root.

Section Handlers.
Context `{Framework} `{QRLibrary} `{BarcodeLibrary}.
Local Open Scope py_scope.

(** The [try] block of [_generate_qr_code_image_bytes]. *)
Definition qr_try_block
    (data fill_color back_color : string) (version box_size border : Z) : M BytesIO :=
  qr <- extern (call_QRCode version ERROR_CORRECT_H box_size border)
               (lib_QRCode version ERROR_CORRECT_H box_size border) ;;
  qr <- extern (call_add_data data) (lib_add_data qr data) ;;
  qr <- extern (call_make true) (lib_make qr true) ;;
  img <- extern (call_make_image fill_color back_color)
                (lib_make_image qr fill_color back_color) ;;
  let img_byte_arr := BytesIO_new in
  img_byte_arr <- writing (call_save "PNG") (lib_save img "PNG") img_byte_arr ;;
  let img_byte_arr := BytesIO_seek 0 img_byte_arr in
  ret img_byte_arr.

Definition _generate_qr_code_image_bytes
    (data fill_color back_color : string) (version box_size border : Z) : M BytesIO :=
  try_except (qr_try_block data fill_color back_color version box_size border)
    [(cls_Exception, λ e,
       raise (HTTPException HTTP_500_INTERNAL_SERVER_ERROR
                (qr_failure_detail (str_exn e))))].

(** The [try] block of [_generate_barcode_image_bytes]. *)
Definition barcode_try_block
    (barcode_type data : string) (options : gmap string json) : M BytesIO :=
  (if negb (py_in barcode_type supported_barcode_types)
   then raise (HTTPException HTTP_400_BAD_REQUEST (unsupported_detail barcode_type))
   else ret tt) ;;;
  barcode_class <- extern (call_barcode_get barcode_type) (lib_barcode_get barcode_type) ;;
  barcode_instance <- extern (call_barcode_class data) (lib_barcode_class barcode_class data) ;;
  let img_byte_arr := BytesIO_new in
  img_byte_arr <- writing (call_write options) (lib_write barcode_instance options) img_byte_arr ;;
  let img_byte_arr := BytesIO_seek 0 img_byte_arr in
  ret img_byte_arr.

Definition _generate_barcode_image_bytes
    (barcode_type data : string) (options : gmap string json) : M BytesIO :=
  try_except (barcode_try_block barcode_type data options)
    [(cls_BarcodeError, λ e,
       raise (HTTPException HTTP_400_BAD_REQUEST
                (invalid_data_detail barcode_type (str_exn e))));
     (cls_Exception, λ e,
       raise (HTTPException HTTP_500_INTERNAL_SERVER_ERROR
                (barcode_failure_detail (str_exn e))))].

(** [StreamingResponse(content, media_type=..., headers=...)]: the constructor
    encodes the names and the values of the headers as Latin-1, and raises
    when one of them cannot be encoded. *)
Definition StreamingResponse_init
    (content : BytesIO) (media_type : string) (headers : gmap string string) : M Response :=
  if bool_decide (map_Forall (λ k v, latin1_encodable k = true ∧ latin1_encodable v = true)
                    headers)
  then ret (StreamingResponse content media_type headers)
  else raise UnicodeEncodeError.

Definition generate_qr_code_api (request : QRCodeRequest.t) : M Response :=
  img_bytes <- _generate_qr_code_image_bytes
                 (QRCodeRequest.data request)
                 (QRCodeRequest.fill_color request)
                 (QRCodeRequest.back_color request)
                 (QRCodeRequest.version request)
                 (QRCodeRequest.box_size request)
                 (QRCodeRequest.border request) ;;
  StreamingResponse_init img_bytes "image/png"
    {[ "Content-Disposition" := content_disposition (QRCodeRequest.filename request) ]}.

Definition generate_barcode_api (request : BarcodeRequest.t) : M Response :=
  img_bytes <- _generate_barcode_image_bytes
                 (BarcodeRequest.barcode_type request)
                 (BarcodeRequest.data request)
                 (BarcodeRequest.options request) ;;
  StreamingResponse_init img_bytes "image/png"
    {[ "Content-Disposition" := content_disposition (BarcodeRequest.filename request) ]}.

Definition read_root : M Response :=
  ret (JSONResponse 200
         (Content
            (JDict
               [("message", JStr "Welcome to the Barcode/QR Code Generator API!");
                ("docs_url", JStr "/docs");
                ("redoc_url", JStr "/redoc");
                ("endpoints",
                 JDict [("/generate-qr", JStr "POST - Generate a QR Code");
                        ("/generate-barcode", JStr "POST - Generate a Barcode")])]))).

(** ** FastAPI around an endpoint

    No exception handler is registered by the application, so the defaults
    apply: a body that fails validation is answered with 422 and the list of
    errors, without the endpoint being called; an [HTTPException] raised by
    the endpoint becomes a JSON response with its status code and detail
    (no body for the status codes that allow none); any other exception is
    the plain-text 500 "Internal Server Error". *)
Definition is_body_allowed_for_status_code (s : Z) : bool :=
  negb ((s <? 200) || (s =? 204) || (s =? 205) || (s =? 304)).

Definition respond (r : (exn + Response) * list call) : Response * list call :=
  match r with
  | (inr resp, t) => (resp, t)
  | (inl (HTTPException s d), t) =>
      (if is_body_allowed_for_status_code s then JSONResponse s (Detail d)
       else EmptyResponse s, t)
  | (inl _, t) => (ServerError, t)
  end.

Definition post_generate_qr (b : QRCodeRequest.body) : Response * list call :=
  match QRCodeRequest.validate b with
  | inl errs => (JSONResponse HTTP_422_UNPROCESSABLE_ENTITY (Errors errs), [])
  | inr request => respond (generate_qr_code_api request [])
  end.

Definition post_generate_barcode (b : BarcodeRequest.body) : Response * list call :=
  match BarcodeRequest.validate b with
  | inl errs => (JSONResponse HTTP_422_UNPROCESSABLE_ENTITY (Errors errs), [])
  | inr request => respond (generate_barcode_api request [])
  end.

Definition app (r : request) : Response * list call :=
  match r with
  | POST_generate_qr b => post_generate_qr b
  | POST_generate_barcode b => post_generate_barcode b
  | GET_root => respond (read_root [])
  end.
End Handlers.

(** ** The [qrcode] library: the capacity check behind [make(fit=True)]

    The helper calls [qr.make(fit=True)].  With [fit] set the library does not
    check the data against the version it was given: [best_fit] looks for the
    smallest version, from the given one up to 40, whose bit limit holds the
    data, and fails only when there is none.  This module models that search
    for error correction level H, the level the helper passes.  Rendering
    stays a parameter. *)
Module qrcode.

(** [MODE_SIZE_SMALL], [MODE_SIZE_MEDIUM], [MODE_SIZE_LARGE]: the widths of
    the character count fields, by version. *)
Inductive mode_sizes : Type := MODE_SIZE_SMALL | MODE_SIZE_MEDIUM | MODE_SIZE_LARGE.

#[global] Instance mode_sizes_eq_dec : EqDecision mode_sizes.
Proof. solve_decision. Defined.

Definition mode_sizes_for_version (version : Z) : mode_sizes :=
  if version <? 10 then MODE_SIZE_SMALL
  else if version <? 27 then MODE_SIZE_MEDIUM
  else MODE_SIZE_LARGE.

(** Data codewords of versions 1 to 40 at level H (the sums of the data
    counts of the Reed-Solomon blocks). *)
Definition DATA_CODEWORDS_H : list Z :=
  [9; 16; 26; 36; 46; 60; 66; 86; 100; 122;
   140; 158; 180; 197; 223; 253; 283; 313; 341; 385;
   406; 442; 464; 514; 538; 596; 628; 661; 701; 745;
   793; 845; 901; 961; 986; 1054; 1096; 1142; 1222; 1276].

(** [BIT_LIMIT_TABLE[ERROR_CORRECT_H]]: entry 0 is 0, entry [v] is the
    number of data bits of version [v]. *)
Definition BIT_LIMIT_TABLE_H : list Z := 0 :: map (Z.mul 8) DATA_CODEWORDS_H.

Definition bit_limit (version : Z) : Z :=
  default 0 (BIT_LIMIT_TABLE_H !! Z.to_nat version).

(** [bisect.bisect_left(a, x, lo)] on a sorted list: the first index from
    [lo] on whose entry is at least [x], the length of the list if none. *)
Fixpoint bisect_left_from (a : list Z) (x : Z) (i : Z) : Z :=
  match a with
  | [] => i
  | y :: a' => if x <=? y then i else bisect_left_from a' x (i + 1)
  end.

Definition bisect_left (a : list Z) (x lo : Z) : Z :=
  bisect_left_from (drop (Z.to_nat lo) a) x lo.

Definition ValueError (msg : string) : exn := PyException "ValueError" msg.

(** [DataOverflowError()], as [best_fit] names it: no message. *)
Definition DataOverflowError : exn := PyException "DataOverflowError" "".

Definition invalid_version (version : Z) : exn :=
  ValueError ("Invalid version (was " +:+ str_int version +:+ ", expected 1 to 40)").

Definition check_version (version : Z) : exn + unit :=
  if (version <? 1) || (40 <? version)
  then inl (invalid_version version)
  else inr ().

Definition inspect {A} (a : A) : {b : A | a = b} := exist _ a eq_refl.

(** [QRCode.best_fit(start)] of qrcode 8.  [needed_bits sizes] is the length of
    the bit buffer the data list fills when the character counts have the
    widths [sizes].  The result of the search is assigned to [self.version],
    whose setter checks it: when the search ends at 41 it is the setter that
    raises, and the [DataOverflowError] of the next line is not reached. *)
Equations? best_fit (needed_bits : mode_sizes → Z) (start : Z) : exn + Z
  by wf (Z.to_nat (41 - start)) lt :=
  best_fit needed_bits start with inspect (check_version start) := {
    | exist _ (inl e) _ := inl e
    | exist _ (inr _) Hstart
        with inspect (bisect_left BIT_LIMIT_TABLE_H
                        (needed_bits (mode_sizes_for_version start)) start) := {
        | exist _ version Hversion with inspect (check_version version) := {
            | exist _ (inl e) _ := inl e
            | exist _ (inr _) _ with inspect (version =? 41) := {
                | exist _ true _ := inl DataOverflowError
                | exist _ false _
                    with inspect (decide (mode_sizes_for_version start
                                          = mode_sizes_for_version version)) := {
                    | exist _ (left _) _ := inr version
                    | exist _ (right Hsizes) _ := best_fit needed_bits version } } } } }.
Proof.
  assert (Hge : ∀ a x i, i ≤ bisect_left_from a x i).
  { induction a as [|y a IH]; intros x i; simpl; [lia|].
    destruct (x <=? y); [lia|]. specialize (IH x (i + 1)). lia. }
  unfold check_version in Hstart.
  destruct ((start <? 1) || (40 <? start)) eqn:Hrange; [discriminate|].
  apply orb_false_iff in Hrange as [?%Z.ltb_ge ?%Z.ltb_ge].
  pose proof (Hge (drop (Z.to_nat start) BIT_LIMIT_TABLE_H)
                (needed_bits (mode_sizes_for_version start)) start) as Hle.
  fold (bisect_left BIT_LIMIT_TABLE_H
          (needed_bits (mode_sizes_for_version start)) start) in Hle.
  set (version := bisect_left _ _ _) in *.
  assert (version ≠ start) by (intros Heq; apply Hsizes; rewrite Heq; reflexivity).
  lia.
Qed.

(** One [QRCode] object: what the constructor stores and the data added. *)
Record QRCode : Type := {
  version : Z;
  error_correction : Z;
  box_size : Z;
  border : Z;
  data_list : list string
}.

Section Model.
(** [data_bits sizes data]: the bits that the chunks [add_data] makes of
    [data] take in the buffer, headers included. *)
Context (data_bits : mode_sizes → string → Z).
Context {Image : Type}.
Context (make_image : QRCode → string → string → exn + Image).
Context (save : Image → string → bytes * option exn).

Definition needed_bits (data_list : list string) (sizes : mode_sizes) : Z :=
  foldr (λ data n, data_bits sizes data + n) 0 data_list.

(** [QRCode(version, error_correction, box_size, border)] *)
Definition init (version error_correction box_size border : Z) : exn + QRCode :=
  if box_size <=? 0 then
    inl (ValueError ("Invalid box size (was " +:+ str_int box_size
                     +:+ ", expected larger than 0)"))
  else if border <? 0 then
    inl (ValueError ("Invalid border value (was " +:+ str_int border
                     +:+ ", expected 0 or larger than that)"))
  else
    match check_version version with
    | inl e => inl e
    | inr _ =>
        inr {| version := version; error_correction := error_correction;
               box_size := box_size; border := border; data_list := [] |}
    end.

Definition add_data (qr : QRCode) (data : string) : exn + QRCode :=
  inr {| version := version qr; error_correction := error_correction qr;
         box_size := box_size qr; border := border qr;
         data_list := data_list qr ++ [data] |}.

(** The check of [util.create_data], which [makeImpl] runs for the final
    version. *)
Definition create_data (qr : QRCode) : exn + unit :=
  let n := needed_bits (data_list qr) (mode_sizes_for_version (version qr)) in
  if bit_limit (version qr) <? n then
    inl (PyException "DataOverflowError"
           ("Code length overflow. Data size (" +:+ str_int n
            +:+ ") > size available (" +:+ str_int (bit_limit (version qr)) +:+ ")"))
  else inr ().

Definition set_version (qr : QRCode) (v : Z) : QRCode :=
  {| version := v; error_correction := error_correction qr;
     box_size := box_size qr; border := border qr; data_list := data_list qr |}.

(** [qr.make(fit)] *)
Definition make (qr : QRCode) (fit : bool) : exn + QRCode :=
  let fitted :=
    if fit then
      match best_fit (needed_bits (data_list qr)) (version qr) with
      | inl e => inl e
      | inr v => inr (set_version qr v)
      end
    else inr qr in
  match fitted with
  | inl e => inl e
  | inr qr' => match create_data qr' with inl e => inl e | inr _ => inr qr' end
  end.

Definition library : QRLibrary :=
  {| QRCodeObj := QRCode; QRImage := Image;
     lib_QRCode := init; lib_add_data := add_data; lib_make := make;
     lib_make_image := make_image; lib_save := save |}.

(** The data of a request exceeds the capacity of a version: the bits it
    needs are more than the version's bit limit. *)
Definition exceeds_capacity (data : string) (v : Z) : bool :=
  bit_limit v <? data_bits (mode_sizes_for_version v) data.
End Model.

(** The bits of data that [add_data] keeps as one chunk in 8-bit-byte mode
    (no run of 20 digits or upper-case alphanumerics): 4 bits of mode, the
    character count, 8 bits a byte.  Empty data makes no chunk. *)
Definition byte_mode_bits (sizes : mode_sizes) (data : string) : Z :=
  if decide (data = "") then 0
  else 4 + (match sizes with MODE_SIZE_SMALL => 8 | _ => 16 end)
       + 8 * Z.of_nat (String.length data).
End qrcode.

(** ** Collaborators to run the handlers with

    Starlette's current [__str__] of an [HTTPException]; the [qrcode] model
    above for data kept in byte mode, with a rendering that always succeeds
    and writes a fixed eight bytes; and a barcode library that checks EAN-13
    data (twelve digits) and accepts the data of every other type. *)
Definition starlette : Framework :=
  {| HTTPException_str := λ s d, str_int s +:+ ": " +:+ d |}.

Definition PNG_SIGNATURE : bytes :=
  [Byte.x89; Byte.x50; Byte.x4e; Byte.x47; Byte.x0d; Byte.x0a; Byte.x1a; Byte.x0a].

Definition sample_qr_library : QRLibrary :=
  qrcode.library qrcode.byte_mode_bits
    (λ qr _ _, inr qr) (λ _ _, (PNG_SIGNATURE, None)).

Definition isdigit (s : string) : bool :=
  negb (String.eqb s "")
  && forallb (λ c, bool_decide (is_Some (Ascii.is_nat c))) (String.list_ascii_of_string s).

Definition sample_barcode_class (name data : string) : exn + string :=
  if String.eqb name "ean13" then
    let ean := String.substring 0 12 data in
    if negb (isdigit ean) then
      inl (BarcodeError "EAN code can only contain numbers.")
    else if negb (String.length ean =? 12)%nat then
      inl (BarcodeError ("EAN must have 12 digits, not "
                         +:+ str_int (Z.of_nat (String.length ean)) +:+ "."))
    else inr ean
  else inr data.

Definition sample_barcode_library : BarcodeLibrary :=
  {| BarcodeClass := string; BarcodeObj := string;
     lib_barcode_get := λ name, inr name;
     lib_barcode_class := sample_barcode_class;
     lib_write := λ _ _, (PNG_SIGNATURE, None) |}.

(** The same barcode library with a writer that raises after two bytes, the
    way [ImageWriter] does when it cannot load its font. *)
Definition failing_writer_library : BarcodeLibrary :=
  {| BarcodeClass := string; BarcodeObj := string;
     lib_barcode_get := λ name, inr name;
     lib_barcode_class := sample_barcode_class;
     lib_write := λ _ _, ([Byte.x89; Byte.x50],
                          Some (PyException "OSError" "cannot open resource")) |}.

(** A barcode library whose writer puts the text under the bars unless the
    option [write_text] is false, as [ImageWriter] does. *)
Definition text_writer_library : BarcodeLibrary :=
  {| BarcodeClass := string; BarcodeObj := string;
     lib_barcode_get := λ name, inr name;
     lib_barcode_class := sample_barcode_class;
     lib_write := λ obj options,
       (PNG_SIGNATURE ++ match options !! "write_text" with
                         | Some (JBool false) => []
                         | _ => String.list_byte_of_string obj
                         end, None) |}.

Definition qr_body (data filename : option string) (version : option Z)
    : QRCodeRequest.body :=
  {| QRCodeRequest.j_data := data; QRCodeRequest.j_filename := filename;
     QRCodeRequest.j_fill_color := None; QRCodeRequest.j_back_color := None;
     QRCodeRequest.j_version := version; QRCodeRequest.j_box_size := None;
     QRCodeRequest.j_border := None |}.

Definition barcode_body (barcode_type data : string) : BarcodeRequest.body :=
  {| BarcodeRequest.j_barcode_type := Some barcode_type;
     BarcodeRequest.j_data := Some data;
     BarcodeRequest.j_filename := None; BarcodeRequest.j_options := None |}.

Definition sample_post_generate_qr : QRCodeRequest.body → Response * list call :=
  @post_generate_qr starlette sample_qr_library.

Definition sample_post_generate_barcode : BarcodeRequest.body → Response * list call :=
  @post_generate_barcode starlette sample_barcode_library.

Definition sample_app : request → Response * list call :=
  @app starlette sample_qr_library sample_barcode_library.

(** A Code 128 request with options and without a filename. *)
Definition barcode_body_with_options : BarcodeRequest.body :=
  {| BarcodeRequest.j_barcode_type := Some "code128";
     BarcodeRequest.j_data := Some "AB";
     BarcodeRequest.j_filename := None;
     BarcodeRequest.j_options := Some {[ "write_text" := JBool false ]} |}.


(** A filename with a path, quotes, a semicolon and a space in it. *)
Definition special_filename : string :=
  "../my " +:+ dq +:+ "qr" +:+ dq +:+ "; code.png".

(** [n] copies of the letter a. *)
Definition letters (n : nat) : string :=
  String.string_of_list_ascii (replicate n (Ascii.ascii_of_nat 97)).

(** ** Notions the properties are stated with *)

(** [sub] occurs in [s]. *)
Definition contains (s sub : string) : Prop := ∃ pre post, s = pre +:+ sub +:+ post.

(** [s.lower()] and [s.strip()] on ASCII. *)
Definition ascii_lower (c : Ascii.ascii) : Ascii.ascii :=
  let n := Ascii.nat_of_ascii c in
  if ((65 <=? n) && (n <=? 90))%nat then Ascii.ascii_of_nat (n + 32) else c.

Fixpoint lower (s : string) : string :=
  match s with
  | EmptyString => EmptyString
  | String c s' => String (ascii_lower c) (lower s')
  end.

Fixpoint lstrip (s : string) : string :=
  match s with
  | EmptyString => EmptyString
  | String c s' => if Ascii.is_space c then lstrip s' else s
  end.

Definition strip (s : string) : string := String.rev (lstrip (String.rev (lstrip s))).

(** The declared constraints of [QRCodeRequest], as the specification lists
    them: the body violates the constraint on [field]. *)
Definition qr_violates (b : QRCodeRequest.body) (field : string) : Prop :=
  (field = "data" ∧ QRCodeRequest.j_data b = None)
  ∨ (field = "version" ∧ ∃ v, QRCodeRequest.j_version b = Some v ∧ (v < 1 ∨ 40 < v))
  ∨ (field = "box_size" ∧ ∃ n, QRCodeRequest.j_box_size b = Some n ∧ n < 1)
  ∨ (field = "border" ∧ ∃ n, QRCodeRequest.j_border b = Some n ∧ n < 0).

(** The filename a POST request asks for: the field, or the model's default. *)
Definition requested_filename (r : request) : option string :=
  match r with
  | POST_generate_qr b => Some (default "qrcode.png" (QRCodeRequest.j_filename b))
  | POST_generate_barcode b => Some (default "barcode.png" (BarcodeRequest.j_filename b))
  | GET_root => None
  end.




(** The response to an exception [e] of the barcode [try] block: the first
    [except] clause for a [BarcodeError], the second for any other. *)
Definition barcode_error_response `{Framework} (barcode_type : string) (e : exn)
    : Response :=
  match e with
  | BarcodeError cause => JSONResponse 400 (Detail (invalid_data_detail barcode_type cause))
  | _ => JSONResponse 500 (Detail (barcode_failure_detail (str_exn e)))
  end.

(** What the [try] block of each helper does for a validated request, from an
    empty log of calls. *)
Definition qr_encoding `{QRLibrary} (request : QRCodeRequest.t) : (exn + BytesIO) * list call :=
  qr_try_block (QRCodeRequest.data request) (QRCodeRequest.fill_color request)
    (QRCodeRequest.back_color request) (QRCodeRequest.version request)
    (QRCodeRequest.box_size request) (QRCodeRequest.border request) [].

Definition barcode_encoding `{BarcodeLibrary} (request : BarcodeRequest.t)
    : (exn + BytesIO) * list call :=
  barcode_try_block (BarcodeRequest.barcode_type request) (BarcodeRequest.data request)
    (BarcodeRequest.options request) [].

(** The media type of a response: the one given to [StreamingResponse], the
    one of [JSONResponse]. *)
Definition media_type (r : Response) : option string :=
  match r with
  | StreamingResponse _ m _ => Some m
  | JSONResponse _ _ => Some "application/json"
  | _ => None
  end.

(** The headers an endpoint gave to its response. *)
Definition headers_given (r : Response) : gmap string string :=
  match r with
  | StreamingResponse _ _ hs => hs
  | _ => ∅
  end.


(** The library calls of a request when none of them raises, in the order of
    the [try] blocks. *)
Definition qr_calls (request : QRCodeRequest.t) : list call :=
  [call_QRCode (QRCodeRequest.version request) ERROR_CORRECT_H
     (QRCodeRequest.box_size request) (QRCodeRequest.border request);
   call_add_data (QRCodeRequest.data request);
   call_make true;
   call_make_image (QRCodeRequest.fill_color request) (QRCodeRequest.back_color request);
   call_save "PNG"].

Definition barcode_calls (request : BarcodeRequest.t) : list call :=
  [call_barcode_get (BarcodeRequest.barcode_type request);
   call_barcode_class (BarcodeRequest.data request);
   call_write (BarcodeRequest.options request)].


(** * Properties *)

(** ** Strings and membership *)

Lemma py_in_elem_of (x : string) (l : list string) : py_in x l = true ↔ x ∈ l.
Proof.
  unfold py_in. rewrite existsb_exists, list_elem_of_In. split.
  - intros (y & Hy & Heq). apply String.eqb_eq in Heq. by subst.
  - intros Hx. exists x. split; [done | apply String.eqb_refl].
Qed.

Lemma py_in_false (x : string) (l : list string) : py_in x l = false ↔ x ∉ l.
Proof.
  rewrite <- py_in_elem_of. destruct (py_in x l); split; congruence.
Qed.

Lemma supported_names_normal (name : string) :
  name ∈ supported_barcode_types → lower (strip name) = name.
Proof.
  unfold supported_barcode_types. rewrite !elem_of_cons, elem_of_nil.
  intros Hname. repeat (destruct Hname as [-> | Hname]; [reflexivity |]). done.
Qed.

Lemma contains_middle (pre sub post : string) : contains (pre +:+ sub +:+ post) sub.
Proof. by exists pre, post. Qed.

Lemma string_app_assoc (a b c : string) : (a +:+ b) +:+ c = a +:+ b +:+ c.
Proof.
  induction a as [| x a IH]; [reflexivity |].
  change (String x ((a +:+ b) +:+ c) = String x (a +:+ b +:+ c)). by rewrite IH.
Qed.

(** ** The stream handed to the response *)

Lemma BytesIO_fresh_write_read (b : bytes) :
  BytesIO_read (BytesIO_seek 0 (BytesIO_write b BytesIO_new)) = b.
Proof.
  unfold BytesIO_read, BytesIO_seek, BytesIO_write, BytesIO_new. simpl.
  by rewrite drop_nil, app_nil_r.
Qed.

(** ** Validation *)

Lemma required_named {A} (name : string) (v : option A) :
  v = None → ["body"; name] ∈ map loc (required name v).
Proof. intros ->. simpl. apply list_elem_of_here. Qed.

Lemma qr_validate_inr (b : QRCodeRequest.body) (request : QRCodeRequest.t) :
  QRCodeRequest.validate b = inr request →
  QRCodeRequest.errors b = []
  ∧ QRCodeRequest.j_data b = Some (QRCodeRequest.data request)
  ∧ QRCodeRequest.filename request = default "qrcode.png" (QRCodeRequest.j_filename b)
  ∧ QRCodeRequest.fill_color request = default "black" (QRCodeRequest.j_fill_color b)
  ∧ QRCodeRequest.back_color request = default "white" (QRCodeRequest.j_back_color b)
  ∧ QRCodeRequest.version request = default 1 (QRCodeRequest.j_version b)
  ∧ QRCodeRequest.box_size request = default 10 (QRCodeRequest.j_box_size b)
  ∧ QRCodeRequest.border request = default 4 (QRCodeRequest.j_border b).
Proof.
  unfold QRCodeRequest.validate.
  destruct (QRCodeRequest.errors b) eqn:Herr; [| discriminate].
  destruct (QRCodeRequest.j_data b) eqn:Hdata; [| discriminate].
  intros [= <-]. simpl. by repeat split.
Qed.

Lemma qr_validate_inl (b : QRCodeRequest.body) (errs : list ErrorDetails) :
  QRCodeRequest.validate b = inl errs → errs = QRCodeRequest.errors b ∧ errs ≠ [].
Proof.
  unfold QRCodeRequest.validate.
  destruct (QRCodeRequest.errors b) eqn:Herr.
  - destruct (QRCodeRequest.j_data b) eqn:Hdata; [discriminate |].
    unfold QRCodeRequest.errors in Herr. rewrite Hdata in Herr. discriminate.
  - intros [= <-]. done.
Qed.

Lemma qr_errors_nonempty_inl (b : QRCodeRequest.body) :
  QRCodeRequest.errors b ≠ [] →
  QRCodeRequest.validate b = inl (QRCodeRequest.errors b).
Proof.
  unfold QRCodeRequest.validate. by destruct (QRCodeRequest.errors b).
Qed.

Lemma qr_violation_named (b : QRCodeRequest.body) (field : string) :
  qr_violates b field → ["body"; field] ∈ map loc (QRCodeRequest.errors b).
Proof.
  unfold qr_violates, QRCodeRequest.errors. rewrite !map_app, !elem_of_app.
  intros [[-> Hd] | [[-> (v & Hv & Hr)] | [[-> (n & Hn & Hr)] | [-> (n & Hn & Hr)]]]].
  - left. by apply required_named.
  - right. rewrite Hv. unfold Field_ge, Field_le. destruct Hr as [Hr | Hr].
    + left. apply Z.ltb_lt in Hr. rewrite Hr. apply list_elem_of_here.
    + right. left. apply Z.ltb_lt in Hr. rewrite Hr. apply list_elem_of_here.
  - do 3 right. left. rewrite Hn. unfold Field_ge. apply Z.ltb_lt in Hr. rewrite Hr.
    apply list_elem_of_here.
  - do 4 right. rewrite Hn. unfold Field_ge. apply Z.ltb_lt in Hr. rewrite Hr.
    apply list_elem_of_here.
Qed.

(** Conversely, a body that violates no constraint but, possibly, the one on
    [data], and has [data], has no error. *)
Lemma qr_no_other_violation (b : QRCodeRequest.body) (d : string) :
  (∀ field, qr_violates b field → field = "data") →
  QRCodeRequest.j_data b = Some d →
  QRCodeRequest.errors b = [].
Proof.
  intros Hothers Hd. unfold QRCodeRequest.errors, required, Field_ge, Field_le. rewrite Hd.
  assert (Hversion : ∀ v, QRCodeRequest.j_version b = Some v → ¬ (v < 1 ∨ 40 < v)).
  { intros v Hv Hr. by specialize (Hothers "version" ltac:(right; left; eauto)). }
  assert (Hbox : ∀ n, QRCodeRequest.j_box_size b = Some n → ¬ n < 1).
  { intros n Hn Hr. by specialize (Hothers "box_size" ltac:(do 2 right; left; eauto)). }
  assert (Hborder : ∀ n, QRCodeRequest.j_border b = Some n → ¬ n < 0).
  { intros n Hn Hr. by specialize (Hothers "border" ltac:(do 3 right; eauto)). }
  destruct (QRCodeRequest.j_version b) as [v |]; simpl.
  - specialize (Hversion v eq_refl).
    destruct (v <? 1) eqn:H1; [apply Z.ltb_lt in H1; lia |].
    destruct (40 <? v) eqn:H2; [apply Z.ltb_lt in H2; lia |]. simpl.
    destruct (QRCodeRequest.j_box_size b) as [n |]; simpl.
    + specialize (Hbox n eq_refl).
      destruct (n <? 1) eqn:H3; [apply Z.ltb_lt in H3; lia |]. simpl.
      destruct (QRCodeRequest.j_border b) as [m |]; [| done].
      specialize (Hborder m eq_refl).
      by destruct (m <? 0) eqn:H4; [apply Z.ltb_lt in H4; lia |].
    + destruct (QRCodeRequest.j_border b) as [m |]; [| done].
      specialize (Hborder m eq_refl).
      by destruct (m <? 0) eqn:H4; [apply Z.ltb_lt in H4; lia |].
  - destruct (QRCodeRequest.j_box_size b) as [n |]; simpl.
    + specialize (Hbox n eq_refl).
      destruct (n <? 1) eqn:H3; [apply Z.ltb_lt in H3; lia |]. simpl.
      destruct (QRCodeRequest.j_border b) as [m |]; [| done].
      specialize (Hborder m eq_refl).
      by destruct (m <? 0) eqn:H4; [apply Z.ltb_lt in H4; lia |].
    + destruct (QRCodeRequest.j_border b) as [m |]; [| done].
      specialize (Hborder m eq_refl).
      by destruct (m <? 0) eqn:H4; [apply Z.ltb_lt in H4; lia |].
Qed.

Lemma barcode_validate_inr (b : BarcodeRequest.body) (request : BarcodeRequest.t) :
  BarcodeRequest.validate b = inr request →
  BarcodeRequest.j_barcode_type b = Some (BarcodeRequest.barcode_type request)
  ∧ BarcodeRequest.j_data b = Some (BarcodeRequest.data request)
  ∧ BarcodeRequest.filename request = default "barcode.png" (BarcodeRequest.j_filename b)
  ∧ BarcodeRequest.options request = default ∅ (BarcodeRequest.j_options b).
Proof.
  unfold BarcodeRequest.validate.
  destruct (BarcodeRequest.errors b); [| discriminate].
  destruct (BarcodeRequest.j_barcode_type b); [| discriminate].
  destruct (BarcodeRequest.j_data b); [| discriminate].
  intros [= <-]. simpl. by repeat split.
Qed.

Lemma barcode_validate_inl (b : BarcodeRequest.body) (errs : list ErrorDetails) :
  BarcodeRequest.validate b = inl errs → errs ≠ [].
Proof.
  unfold BarcodeRequest.validate, BarcodeRequest.errors.
  destruct (BarcodeRequest.j_barcode_type b), (BarcodeRequest.j_data b); simpl;
    intros [= <-]; done.
Qed.

(** ** Header values *)

Lemma latin1_encodable_quoted (f : string) :
  latin1_encodable (f +:+ dq) = latin1_encodable f
  ∧ ∀ c, latin1_encodable (String c f +:+ dq) = latin1_encodable (String c f).
Proof.
  induction f as [| c' f [IH1 IH2]].
  - split; [reflexivity |]. intros c.
    change (String c "" +:+ dq) with (String c dq). simpl.
    destruct (_ <? 128)%nat; [reflexivity |]. by destruct (_ || _).
  - split; [apply IH2 |]. intros c.
    change (String c (String c' f) +:+ dq) with (String c (String c' (f +:+ dq))).
    change (latin1_encodable (String c (String c' (f +:+ dq))))
      with (if (Ascii.nat_of_ascii c <? 128)%nat
            then latin1_encodable (String c' f +:+ dq)
            else if ((Ascii.nat_of_ascii c =? 194) || (Ascii.nat_of_ascii c =? 195))%nat
                 then is_continuation c' && latin1_encodable (f +:+ dq)
                 else false).
    rewrite IH1, IH2. reflexivity.
Qed.

(** The value of the header can be encoded exactly when the filename can. *)
Lemma latin1_encodable_content_disposition (f : string) :
  latin1_encodable (content_disposition f) = latin1_encodable f.
Proof.
  rewrite <- (proj1 (latin1_encodable_quoted f)). reflexivity.
Qed.

(** ** Running the endpoints *)

Section Endpoints.
Context `{Framework} `{QRLibrary} `{BarcodeLibrary}.

(** The constructor of the response accepts the one header the endpoints
    give it exactly when the filename can be encoded. *)
Lemma StreamingResponse_init_run (content : BytesIO) (f : string) (t : list call) :
  StreamingResponse_init content "image/png"
    {[ "Content-Disposition" := content_disposition f ]} t
  = if latin1_encodable f
    then (inr (StreamingResponse content "image/png"
                 {[ "Content-Disposition" := content_disposition f ]}), t)
    else (inl UnicodeEncodeError, t).
Proof.
  unfold StreamingResponse_init.
  pose proof (latin1_encodable_content_disposition f) as Hcd.
  case_bool_decide as Hall; rewrite map_Forall_singleton in Hall.
  - destruct Hall as [_ Hf]. rewrite Hcd in Hf. by rewrite Hf.
  - destruct (latin1_encodable f); [| done].
    exfalso. apply Hall. by split.
Qed.

Lemma post_generate_qr_run (b : QRCodeRequest.body) (request : QRCodeRequest.t) :
  QRCodeRequest.validate b = inr request →
  post_generate_qr b =
    match qr_encoding request with
    | (inl e, t) => (JSONResponse 500 (Detail (qr_failure_detail (str_exn e))), t)
    | (inr stream, t) =>
        (if latin1_encodable (QRCodeRequest.filename request)
         then StreamingResponse stream "image/png"
                {[ "Content-Disposition" :=
                     content_disposition (QRCodeRequest.filename request) ]}
         else ServerError, t)
    end.
Proof.
  intros Hv. unfold post_generate_qr. rewrite Hv.
  unfold generate_qr_code_api, _generate_qr_code_image_bytes, try_except, bind,
    qr_encoding.
  destruct (qr_try_block _ _ _ _ _ _ []) as [[e | stream] t]; [done |].
  rewrite StreamingResponse_init_run.
  by destruct (latin1_encodable _).
Qed.

Lemma post_generate_barcode_run (b : BarcodeRequest.body) (request : BarcodeRequest.t) :
  BarcodeRequest.validate b = inr request →
  post_generate_barcode b =
    match barcode_encoding request with
    | (inl (BarcodeError msg), t) =>
        (JSONResponse 400
           (Detail (invalid_data_detail (BarcodeRequest.barcode_type request) msg)), t)
    | (inl e, t) => (JSONResponse 500 (Detail (barcode_failure_detail (str_exn e))), t)
    | (inr stream, t) =>
        (if latin1_encodable (BarcodeRequest.filename request)
         then StreamingResponse stream "image/png"
                {[ "Content-Disposition" :=
                     content_disposition (BarcodeRequest.filename request) ]}
         else ServerError, t)
    end.
Proof.
  intros Hv. unfold post_generate_barcode. rewrite Hv.
  unfold generate_barcode_api, _generate_barcode_image_bytes, try_except, bind,
    barcode_encoding.
  destruct (barcode_try_block _ _ _ []) as [[[s d | msg | cls msg] | stream] t];
    [done .. |].
  rewrite StreamingResponse_init_run.
  by destruct (latin1_encodable _).
Qed.

Lemma post_generate_qr_invalid (b : QRCodeRequest.body) (errs : list ErrorDetails) :
  QRCodeRequest.validate b = inl errs →
  post_generate_qr b = (JSONResponse 422 (Errors errs), []).
Proof. intros Hv. unfold post_generate_qr. by rewrite Hv. Qed.

Lemma post_generate_barcode_invalid (b : BarcodeRequest.body) (errs : list ErrorDetails) :
  BarcodeRequest.validate b = inl errs →
  post_generate_barcode b = (JSONResponse 422 (Errors errs), []).
Proof. intros Hv. unfold post_generate_barcode. by rewrite Hv. Qed.



Lemma barcode_encoding_unsupported (request : BarcodeRequest.t) :
  BarcodeRequest.barcode_type request ∉ supported_barcode_types →
  barcode_encoding request =
    (inl (HTTPException 400 (unsupported_detail (BarcodeRequest.barcode_type request))), []).
Proof.
  intros Hn%py_in_false. unfold barcode_encoding, barcode_try_block, bind.
  by rewrite Hn.
Qed.

(** For a supported type the barcode [try] block is the three library
    calls. *)
Lemma barcode_encoding_supported (request : BarcodeRequest.t) :
  BarcodeRequest.barcode_type request ∈ supported_barcode_types →
  barcode_encoding request =
    match lib_barcode_get (BarcodeRequest.barcode_type request) with
    | inl e => (inl e, [call_barcode_get (BarcodeRequest.barcode_type request)])
    | inr cls =>
        match lib_barcode_class cls (BarcodeRequest.data request) with
        | inl e => (inl e, [call_barcode_get (BarcodeRequest.barcode_type request);
                            call_barcode_class (BarcodeRequest.data request)])
        | inr obj =>
            (match (lib_write obj (BarcodeRequest.options request)).2 with
             | Some e => inl e
             | None =>
                 inr (BytesIO_seek 0
                        (BytesIO_write (lib_write obj (BarcodeRequest.options request)).1
                           BytesIO_new))
             end,
             [call_barcode_get (BarcodeRequest.barcode_type request);
              call_barcode_class (BarcodeRequest.data request);
              call_write (BarcodeRequest.options request)])
        end
    end.
Proof.
  intros Hs%py_in_elem_of. unfold barcode_encoding, barcode_try_block, bind.
  rewrite Hs. unfold extern, writing, ret. simpl.
  destruct (lib_barcode_get _) as [e | cls]; [done |].
  destruct (lib_barcode_class _ _) as [e | obj]; [done |].
  by destruct (lib_write _ _) as [image [e |]].
Qed.
End Endpoints.

(** ** The error paths of the two endpoints *)

Section ErrorPaths.
Context `{Framework} `{QRLibrary} `{BarcodeLibrary}.

(** C5.  Whenever the encoder faults on a POST /generate-qr request, that
    is, a library call in the [try] block of the QR helper raises an
    exception [e], the response is a 500 whose JSON body is
    [{detail: "Failed to generate QR Code: <cause>"}], with [str(e)] as the
    cause. *)
Theorem qr_encoder_fault_is_500
    (b : QRCodeRequest.body) (request : QRCodeRequest.t) (e : exn) (t : list call) :
  QRCodeRequest.validate b = inr request →
  qr_encoding request = (inl e, t) →
  post_generate_qr b
  = (JSONResponse 500 (Detail ("Failed to generate QR Code: " +:+ str_exn e)), t).
Proof.
  intros Hv He. rewrite (post_generate_qr_run b request Hv), He. reflexivity.
Qed.

(** C4.  When the type of a POST /generate-barcode request is supported and
    the encoder raises its invalid-data error (a [BarcodeError] with message
    [cause]), the response is a 400 whose detail contains the barcode type
    and the cause. *)
Theorem barcode_invalid_data_is_400
    (b : BarcodeRequest.body) (request : BarcodeRequest.t) (cause : string)
    (t : list call) :
  BarcodeRequest.validate b = inr request →
  BarcodeRequest.barcode_type request ∈ supported_barcode_types →
  barcode_encoding request = (inl (BarcodeError cause), t) →
  ∃ detail,
    post_generate_barcode b = (JSONResponse 400 (Detail detail), t)
    ∧ detail = "Invalid data for barcode type '" +:+ BarcodeRequest.barcode_type request
               +:+ "': " +:+ cause +:+ ". Please check data format and length."
    ∧ contains detail (BarcodeRequest.barcode_type request)
    ∧ contains detail cause.
Proof.
  intros Hv _ He. eexists. split; [| split; [reflexivity |]].
  - rewrite (post_generate_barcode_run b request Hv), He. reflexivity.
  - split.
    + apply contains_middle.
    + exists ("Invalid data for barcode type '" +:+ BarcodeRequest.barcode_type request
              +:+ "': "), ". Please check data format and length.".
      by rewrite !string_app_assoc.
Qed.

(** C1, as the code has it.  The helper raises the 400 for an unsupported
    type inside its own [try] block, whose [except Exception] clause catches
    it: the response to a request with an unsupported type is a 500, and the
    text of the 400 (the offending value and the supported set) survives
    only inside the cause of that 500.  No library call is made. *)
Theorem unsupported_barcode_type_is_500
    (b : BarcodeRequest.body) (request : BarcodeRequest.t) :
  BarcodeRequest.validate b = inr request →
  BarcodeRequest.barcode_type request ∉ supported_barcode_types →
  post_generate_barcode b
  = (JSONResponse 500
       (Detail ("Failed to generate barcode: "
                +:+ HTTPException_str 400
                      ("Unsupported barcode type: '" +:+ BarcodeRequest.barcode_type request
                       +:+ "'. Supported types: ean8, ean13, upca, jan, isbn10, isbn13, "
                       +:+ "issn, code39, code128, pzn, gs1"))), []).
Proof.
  intros Hv Hn.
  rewrite (post_generate_barcode_run b request Hv),
    (barcode_encoding_unsupported request Hn).
  reflexivity.
Qed.

(** C9.  The membership test compares the type with the eleven lower-case
    names by exact string equality.  A type that differs from a supported
    name only in case or in surrounding whitespace is therefore not in the
    list: the [try] block raises the unsupported-type exception and no
    library call is made. *)
Theorem barcode_type_test_is_exact
    (barcode_type name data : string) (options : gmap string json) :
  name ∈ supported_barcode_types →
  barcode_type ≠ name →
  lower (strip barcode_type) = name →
  (∀ ty, py_in ty supported_barcode_types = true ↔
         ty = "ean8" ∨ ty = "ean13" ∨ ty = "upca" ∨ ty = "jan" ∨ ty = "isbn10"
         ∨ ty = "isbn13" ∨ ty = "issn" ∨ ty = "code39" ∨ ty = "code128"
         ∨ ty = "pzn" ∨ ty = "gs1")
  ∧ py_in barcode_type supported_barcode_types = false
  ∧ barcode_try_block barcode_type data options []
    = (inl (HTTPException 400 (unsupported_detail barcode_type)), []).
Proof.
  intros Hname Hne Hnorm.
  assert (Hout : py_in barcode_type supported_barcode_types = false).
  { apply py_in_false. intros Hin. apply Hne.
    rewrite <- Hnorm. symmetry. by apply supported_names_normal. }
  split; [| split; [exact Hout |]].
  - intros ty. rewrite py_in_elem_of. unfold supported_barcode_types.
    rewrite !elem_of_cons, elem_of_nil. tauto.
  - unfold barcode_try_block, bind. by rewrite Hout.
Qed.
End ErrorPaths.

(** ** Validation, headers and bodies *)

Section Requests.
Context `{Framework} `{QRLibrary} `{BarcodeLibrary}.

Lemma qr_violation_rejected (b : QRCodeRequest.body) (field : string) :
  qr_violates b field →
  post_generate_qr b = (JSONResponse 422 (Errors (QRCodeRequest.errors b)), [])
  ∧ ["body"; field] ∈ map loc (QRCodeRequest.errors b).
Proof.
  intros Hviol. pose proof (qr_violation_named b field Hviol) as Hnamed.
  split; [| exact Hnamed].
  apply post_generate_qr_invalid, qr_errors_nonempty_inl.
  intros Hnil. rewrite Hnil in Hnamed. by apply elem_of_nil in Hnamed.
Qed.

(** C3, amended.  A QR request that violates a declared constraint (the
    version outside 1..40, a box size below 1, a border below 0, or no
    data) is rejected before any library call is made, with the framework's
    validation status 422 and an error list that names the offending
    field. *)
Theorem qr_constraint_violation_is_422 (b : QRCodeRequest.body) (field : string) :
  qr_violates b field →
  ∃ errs,
    post_generate_qr b = (JSONResponse 422 (Errors errs), [])
    ∧ ["body"; field] ∈ map loc errs.
Proof.
  intros Hviol. exists (QRCodeRequest.errors b).
  by apply qr_violation_rejected.
Qed.


(** C7.  On every successful request to a POST endpoint the
    [Content-Disposition] header is [inline; filename="<f>"], [f] being the
    filename field of the request as it was sent ("qrcode.png" and
    "barcode.png" when the field is absent): nothing is escaped or
    removed. *)
Theorem content_disposition_is_requested_filename
    (r : request) (resp : Response) (t : list call) (f : string) :
  app r = (resp, t) →
  status resp = 200 →
  requested_filename r = Some f →
  header "Content-Disposition" resp = Some ("inline; filename=" +:+ dq +:+ f +:+ dq).
Proof.
  destruct r as [b | b |]; unfold app, requested_filename; [| | discriminate].
  - destruct (QRCodeRequest.validate b) as [errs | request] eqn:Hv.
    { rewrite (post_generate_qr_invalid b errs Hv). intros [= <- <-]. discriminate. }
    rewrite (post_generate_qr_run b request Hv).
    destruct (qr_validate_inr b request Hv) as (_ & _ & Hf & _).
    destruct (qr_encoding request) as [[e | stream] t']; [intros [= <- <-]; discriminate |].
    destruct (latin1_encodable _); intros [= <- <-]; [| discriminate].
    intros _ [= <-]. simpl. rewrite lookup_singleton_eq, Hf. reflexivity.
  - destruct (BarcodeRequest.validate b) as [errs | request] eqn:Hv.
    { rewrite (post_generate_barcode_invalid b errs Hv). intros [= <- <-]. discriminate. }
    rewrite (post_generate_barcode_run b request Hv).
    destruct (barcode_validate_inr b request Hv) as (_ & _ & Hf & _).
    destruct (barcode_encoding request) as [[[s d | msg | cls msg] | stream] t'];
      [intros [= <- <-]; discriminate .. |].
    destruct (latin1_encodable _); intros [= <- <-]; [| discriminate].
    intros _ [= <-]. simpl. rewrite lookup_singleton_eq, Hf. reflexivity.
Qed.


(** C10.  A POST /generate-barcode request that leaves out [filename] gets
    "barcode.png", one that leaves out [options] gets the empty mapping,
    and a supplied mapping is kept as it is.  The only [write] call the
    handler can make receives exactly that mapping; it is made whenever the
    type is supported and the two calls before it return, and the response is
    made of what [write] does with that mapping: its error, or the bytes it
    wrote. *)
Theorem barcode_defaults_and_options
    (b : BarcodeRequest.body) (request : BarcodeRequest.t) :
  BarcodeRequest.validate b = inr request →
  (BarcodeRequest.j_filename b = None → BarcodeRequest.filename request = "barcode.png")
  ∧ (BarcodeRequest.j_options b = None → BarcodeRequest.options request = ∅)
  ∧ (∀ o, BarcodeRequest.j_options b = Some o → BarcodeRequest.options request = o)
  ∧ (∀ o, call_write o ∈ (post_generate_barcode b).2 →
          o = default ∅ (BarcodeRequest.j_options b))
  ∧ (∀ cls obj,
       BarcodeRequest.barcode_type request ∈ supported_barcode_types →
       lib_barcode_get (BarcodeRequest.barcode_type request) = inr cls →
       lib_barcode_class cls (BarcodeRequest.data request) = inr obj →
       (post_generate_barcode b).2
       = [call_barcode_get (BarcodeRequest.barcode_type request);
          call_barcode_class (BarcodeRequest.data request);
          call_write (default ∅ (BarcodeRequest.j_options b))]
       ∧ (post_generate_barcode b).1
         = match (lib_write obj (default ∅ (BarcodeRequest.j_options b))).2 with
           | Some (BarcodeError cause) =>
               JSONResponse 400
                 (Detail (invalid_data_detail (BarcodeRequest.barcode_type request) cause))
           | Some e => JSONResponse 500 (Detail (barcode_failure_detail (str_exn e)))
           | None =>
               if latin1_encodable (default "barcode.png" (BarcodeRequest.j_filename b))
               then StreamingResponse
                      (BytesIO_seek 0
                         (BytesIO_write
                            (lib_write obj (default ∅ (BarcodeRequest.j_options b))).1
                            BytesIO_new))
                      "image/png"
                      {[ "Content-Disposition" :=
                           content_disposition
                             (default "barcode.png" (BarcodeRequest.j_filename b)) ]}
               else ServerError
           end).
Proof.
  intros Hv. destruct (barcode_validate_inr b request Hv) as (_ & _ & Hf & Hopt).
  split; [by intros Hnone; rewrite Hf, Hnone |].
  split; [by intros Hnone; rewrite Hopt, Hnone |].
  split; [by intros o Hsome; rewrite Hopt, Hsome |].
  rewrite (post_generate_barcode_run b request Hv), <- Hopt, <- Hf.
  split.
  - intros o.
    destruct (decide (BarcodeRequest.barcode_type request ∈ supported_barcode_types))
      as [Hs | Hn].
    + rewrite (barcode_encoding_supported request Hs).
      destruct (lib_barcode_get _) as [e | cls].
      { destruct e; simpl; rewrite !elem_of_cons, elem_of_nil; intuition congruence. }
      destruct (lib_barcode_class _ _) as [e | obj].
      { destruct e; simpl; rewrite !elem_of_cons, elem_of_nil; intuition congruence. }
      destruct (lib_write obj _) as [image [e |]]; [destruct e |]; simpl;
        rewrite !elem_of_cons, elem_of_nil; intuition congruence.
    + rewrite (barcode_encoding_unsupported request Hn). simpl.
      by rewrite elem_of_nil.
  - intros cls obj Hs Hget Hcls.
    rewrite (barcode_encoding_supported request Hs), Hget, Hcls.
    by destruct (lib_write obj _) as [image [e |]]; [destruct e |].
Qed.
End Requests.

(** ** The capacity check of [make(fit=True)] *)

Lemma bisect_left_from_ge (a : list Z) (x i : Z) : i ≤ qrcode.bisect_left_from a x i.
Proof.
  revert i. induction a as [| y a IH]; intros i; simpl; [lia |].
  destruct (x <=? y); [lia |]. specialize (IH (i + 1)). lia.
Qed.

Lemma bisect_left_from_le (a : list Z) (x i : Z) :
  qrcode.bisect_left_from a x i ≤ i + Z.of_nat (length a).
Proof.
  revert i. induction a as [| y a IH]; intros i; simpl; [lia |].
  destruct (x <=? y); [lia |]. specialize (IH (i + 1)). lia.
Qed.

(** Where the search stops inside the list, the entry is large enough. *)
Lemma bisect_left_from_found (a : list Z) (x i : Z) :
  qrcode.bisect_left_from a x i < i + Z.of_nat (length a) →
  ∃ y, a !! Z.to_nat (qrcode.bisect_left_from a x i - i) = Some y ∧ x ≤ y.
Proof.
  revert i. induction a as [| y a IH]; intros i; simpl; [lia |].
  destruct (x <=? y) eqn:Hxy.
  - intros _. exists y. rewrite Z.sub_diag. split; [done | lia].
  - intros Hlt. destruct (IH (i + 1)) as (z & Hz & Hle); [lia |].
    exists z. split; [| done].
    pose proof (bisect_left_from_ge a x (i + 1)).
    replace (Z.to_nat (qrcode.bisect_left_from a x (i + 1) - i))
      with (S (Z.to_nat (qrcode.bisect_left_from a x (i + 1) - (i + 1)))) by lia.
    done.
Qed.

Lemma bisect_left_table_found (x lo : Z) :
  0 ≤ lo →
  qrcode.bisect_left qrcode.BIT_LIMIT_TABLE_H x lo < 41 →
  x ≤ qrcode.bit_limit (qrcode.bisect_left qrcode.BIT_LIMIT_TABLE_H x lo).
Proof.
  intros Hlo Hlt. unfold qrcode.bisect_left in *.
  pose proof (bisect_left_from_ge (drop (Z.to_nat lo) qrcode.BIT_LIMIT_TABLE_H) x lo) as Hge.
  destruct (bisect_left_from_found (drop (Z.to_nat lo) qrcode.BIT_LIMIT_TABLE_H) x lo)
    as (y & Hy & Hle).
  { rewrite length_drop. change (length qrcode.BIT_LIMIT_TABLE_H) with 41%nat. lia. }
  rewrite lookup_drop in Hy. unfold qrcode.bit_limit.
  replace (Z.to_nat lo + Z.to_nat (qrcode.bisect_left_from _ x lo - lo))%nat
    with (Z.to_nat (qrcode.bisect_left_from
                      (drop (Z.to_nat lo) qrcode.BIT_LIMIT_TABLE_H) x lo)) in Hy by lia.
  by rewrite Hy.
Qed.

(** The result of the search in [best_fit]: named [version], with its bounds. *)
Ltac bisect_bounds needed_bits start :=
  let Hge := fresh "Hge" in
  let Hle := fresh "Hle" in
  pose proof (bisect_left_from_ge (drop (Z.to_nat start) qrcode.BIT_LIMIT_TABLE_H)
                (needed_bits (qrcode.mode_sizes_for_version start)) start) as Hge;
  pose proof (bisect_left_from_le (drop (Z.to_nat start) qrcode.BIT_LIMIT_TABLE_H)
                (needed_bits (qrcode.mode_sizes_for_version start)) start) as Hle;
  rewrite length_drop in Hle;
  change (length qrcode.BIT_LIMIT_TABLE_H) with 41%nat in Hle;
  fold (qrcode.bisect_left qrcode.BIT_LIMIT_TABLE_H
          (needed_bits (qrcode.mode_sizes_for_version start)) start) in Hge, Hle;
  set (version := qrcode.bisect_left _ _ _) in *.

Ltac bisect_version needed_bits start :=
  bisect_bounds needed_bits start;
  match goal with
  | He : (_ =? 41) = false |- _ => pose proof (proj1 (Z.eqb_neq _ _) He)
  end.

(** The check of the version setter, read as bounds. *)
Lemma check_version_inr (version : Z) (u : ()) :
  qrcode.check_version version = inr u → 1 ≤ version ≤ 40.
Proof.
  unfold qrcode.check_version.
  destruct ((version <? 1) || (40 <? version)) eqn:Hb; [discriminate |].
  apply orb_false_iff in Hb as [?%Z.ltb_ge ?%Z.ltb_ge]. lia.
Qed.

Lemma check_version_inl (version : Z) (e : exn) :
  qrcode.check_version version = inl e →
  e = qrcode.invalid_version version ∧ (version < 1 ∨ 40 < version).
Proof.
  unfold qrcode.check_version.
  destruct ((version <? 1) || (40 <? version)) eqn:Hb; [| discriminate].
  intros [= <-]. split; [done |].
  apply orb_true_iff in Hb as [?%Z.ltb_lt | ?%Z.ltb_lt]; lia.
Qed.

(** When no version from [start] to 40 holds the data, the search of
    [best_fit] ends at 41, which the version setter refuses. *)
Lemma best_fit_overflow (needed_bits : qrcode.mode_sizes → Z) (start : Z) :
  1 ≤ start ≤ 40 →
  (∀ v, start ≤ v ≤ 40 →
        qrcode.bit_limit v < needed_bits (qrcode.mode_sizes_for_version v)) →
  qrcode.best_fit needed_bits start = inl (qrcode.invalid_version 41).
Proof.
  funelim (qrcode.best_fit needed_bits start); intros Hrange Hnone.
  - exfalso. clear Heqcall. unfold qrcode.check_version in *.
    destruct ((start <? 1) || (40 <? start)) eqn:Hb; [| discriminate].
    apply orb_true_iff in Hb as [?%Z.ltb_lt | ?%Z.ltb_lt]; lia.
  - bisect_bounds needed_bits start.
    match goal with
    | Hc : qrcode.check_version version = inl _ |- _ =>
        destruct (check_version_inl _ _ Hc) as [-> Hout]
    end.
    by replace version with 41 by lia.
  - exfalso. bisect_bounds needed_bits start.
    match goal with
    | Hc : qrcode.check_version version = inr _ |- _ =>
        pose proof (check_version_inr _ _ Hc)
    end.
    match goal with
    | He : (_ =? 41) = true |- _ => pose proof (proj1 (Z.eqb_eq _ _) He)
    end.
    lia.
  - exfalso. bisect_version needed_bits start.
    pose proof (bisect_left_table_found
                  (needed_bits (qrcode.mode_sizes_for_version start)) start) as Hfound.
    fold version in Hfound.
    match goal with
    | Hs : qrcode.mode_sizes_for_version start = _ |- _ => rewrite Hs in Hfound
    end.
    specialize (Hnone version). lia.
  - bisect_version needed_bits start.
    match goal with
    | IH : _ → _ → qrcode.best_fit _ _ = _ |- _ => apply IH
    end; [lia |].
    intros v Hv. apply Hnone. lia.
Qed.

(** The search stops no later than at the first entry that is large enough. *)
Lemma bisect_left_from_minimal (a : list Z) (x i : Z) (j : nat) (y : Z) :
  a !! j = Some y → x ≤ y → qrcode.bisect_left_from a x i ≤ i + Z.of_nat j.
Proof.
  revert i j. induction a as [| z a IH]; intros i j; [done |]. simpl.
  destruct (x <=? z) eqn:Hxz; [lia |].
  destruct j as [| j]; simpl.
  - intros [= ->] Hle. apply Z.leb_gt in Hxz. lia.
  - intros Hj Hle. specialize (IH (i + 1) j Hj Hle). lia.
Qed.

Lemma bisect_left_table_minimal (x lo v : Z) :
  0 ≤ lo ≤ v → v ≤ 40 → x ≤ qrcode.bit_limit v →
  qrcode.bisect_left qrcode.BIT_LIMIT_TABLE_H x lo ≤ v.
Proof.
  intros Hlo Hv Hx. unfold qrcode.bisect_left, qrcode.bit_limit in *.
  destruct (qrcode.BIT_LIMIT_TABLE_H !! Z.to_nat v) as [y |] eqn:Hy.
  - pose proof (bisect_left_from_minimal (drop (Z.to_nat lo) qrcode.BIT_LIMIT_TABLE_H)
                  x lo (Z.to_nat v - Z.to_nat lo) y) as Hmin.
    rewrite lookup_drop in Hmin.
    replace (Z.to_nat lo + (Z.to_nat v - Z.to_nat lo))%nat with (Z.to_nat v) in Hmin by lia.
    specialize (Hmin Hy Hx). lia.
  - apply lookup_ge_None in Hy.
    change (length qrcode.BIT_LIMIT_TABLE_H) with 41%nat in Hy. lia.
Qed.

(** What [fit=True] means: when the data fits some version [v] from [start]
    on, [best_fit] returns a version between [start] and [v] that holds it,
    whether or not the data fits [start] itself.  (Wider character counts
    never make the data shorter.) *)
Lemma best_fit_fits (needed_bits : qrcode.mode_sizes → Z) (start v : Z) :
  (∀ u u', u ≤ u' →
           needed_bits (qrcode.mode_sizes_for_version u)
           ≤ needed_bits (qrcode.mode_sizes_for_version u')) →
  1 ≤ start ≤ v → v ≤ 40 →
  needed_bits (qrcode.mode_sizes_for_version v) ≤ qrcode.bit_limit v →
  ∃ v', qrcode.best_fit needed_bits start = inr v'
        ∧ start ≤ v' ≤ v
        ∧ needed_bits (qrcode.mode_sizes_for_version v') ≤ qrcode.bit_limit v'.
Proof.
  revert v. funelim (qrcode.best_fit needed_bits start); intros v Hmono Hrange Hv Hfits.
  - exfalso. clear Heqcall. unfold qrcode.check_version in *.
    destruct ((start <? 1) || (40 <? start)) eqn:Hb; [| discriminate].
    apply orb_true_iff in Hb as [?%Z.ltb_lt | ?%Z.ltb_lt]; lia.
  - exfalso. bisect_bounds needed_bits start.
    pose proof (bisect_left_table_minimal
                  (needed_bits (qrcode.mode_sizes_for_version start)) start v) as Hmin.
    fold version in Hmin. specialize (Hmono start v).
    match goal with
    | Hc : qrcode.check_version version = inl _ |- _ =>
        destruct (check_version_inl _ _ Hc) as [_ Hout]
    end.
    lia.
  - exfalso.
    pose proof (bisect_left_table_minimal
                  (needed_bits (qrcode.mode_sizes_for_version start)) start v) as Hmin.
    specialize (Hmono start v).
    match goal with
    | He : (_ =? 41) = true |- _ =>
        pose proof (proj1 (Z.eqb_eq _ _) He) as H41; rewrite H41 in Hmin
    end.
    lia.
  - bisect_version needed_bits start.
    pose proof (bisect_left_table_minimal
                  (needed_bits (qrcode.mode_sizes_for_version start)) start v) as Hmin.
    pose proof (bisect_left_table_found
                  (needed_bits (qrcode.mode_sizes_for_version start)) start) as Hfound.
    fold version in Hmin, Hfound. specialize (Hmono start v).
    exists version. split; [done |]. split; [lia |].
    match goal with
    | Hs : qrcode.mode_sizes_for_version start = _ |- _ => rewrite <- Hs
    end.
    lia.
  - bisect_version needed_bits start.
    pose proof (bisect_left_table_minimal
                  (needed_bits (qrcode.mode_sizes_for_version start)) start v) as Hmin.
    fold version in Hmin. pose proof (Hmono start v) as Hsv.
    match goal with
    | IH : ∀ _, _ → _ → _ → _ → ∃ _, _ |- _ =>
        destruct (IH v Hmono) as (v' & Hbest & Hv' & Hheld); [lia | lia | done |]
    end.
    exists v'. split; [done |]. split; [lia | done].
Qed.

(** So [make(fit=True)] returns, with the version raised as far as needed. *)
Lemma make_fit_returns (data_bits : qrcode.mode_sizes → string → Z) (qr : qrcode.QRCode)
    (v : Z) :
  (∀ u u', u ≤ u' →
           qrcode.needed_bits data_bits (qrcode.data_list qr)
             (qrcode.mode_sizes_for_version u)
           ≤ qrcode.needed_bits data_bits (qrcode.data_list qr)
               (qrcode.mode_sizes_for_version u')) →
  1 ≤ qrcode.version qr ≤ v → v ≤ 40 →
  qrcode.needed_bits data_bits (qrcode.data_list qr) (qrcode.mode_sizes_for_version v)
  ≤ qrcode.bit_limit v →
  ∃ v', qrcode.make data_bits qr true = inr (qrcode.set_version qr v')
        ∧ qrcode.version qr ≤ v' ≤ v.
Proof.
  intros Hmono Hrange Hv Hfits.
  destruct (best_fit_fits (qrcode.needed_bits data_bits (qrcode.data_list qr))
              (qrcode.version qr) v Hmono Hrange Hv Hfits) as (v' & Hbest & Hv' & Hheld).
  exists v'. split; [| done]. unfold qrcode.make. rewrite Hbest.
  unfold qrcode.create_data. simpl.
  by destruct (qrcode.bit_limit v' <? _) eqn:Hover; [apply Z.ltb_lt in Hover; lia |].
Qed.

(** A validated request is within the declared bounds. *)
Lemma qr_validate_bounds (b : QRCodeRequest.body) (request : QRCodeRequest.t) :
  QRCodeRequest.validate b = inr request →
  1 ≤ QRCodeRequest.version request ≤ 40
  ∧ 1 ≤ QRCodeRequest.box_size request
  ∧ 0 ≤ QRCodeRequest.border request.
Proof.
  intros Hv.
  destruct (qr_validate_inr b request Hv) as (Herr & _ & _ & _ & _ & -> & -> & ->).
  unfold QRCodeRequest.errors in Herr.
  repeat match type of Herr with
         | _ ++ _ = [] => apply app_eq_nil in Herr as [? Herr]
         end.
  unfold Field_ge, Field_le in *.
  destruct (QRCodeRequest.j_version b) as [v |],
           (QRCodeRequest.j_box_size b) as [n |],
           (QRCodeRequest.j_border b) as [m |]; simpl;
    repeat match goal with
           | Hc : (if ?c then _ else _) = [] |- _ =>
               let Hb := fresh "Hb" in
               destruct c eqn:Hb; [discriminate |]; clear Hc;
               apply Z.ltb_ge in Hb
           end; lia.
Qed.

(** C2, amended.  [make(fit=True)] searches upwards from the version of the
    request.  A QR request whose data exceeds the capacity of every version
    from the requested one up to 40 fails in [make], the third library call,
    and the response is the 500 of the helper, with the library's message for
    the cause.  The check is the library's best-fit search, not a check
    against the requested version alone. *)
Theorem qr_overflow_is_500
    (F : Framework) (data_bits : qrcode.mode_sizes → string → Z) (Image : Type)
    (make_image : qrcode.QRCode → string → string → exn + Image)
    (save : Image → string → bytes * option exn)
    (b : QRCodeRequest.body) (request : QRCodeRequest.t) :
  QRCodeRequest.validate b = inr request →
  (∀ v, QRCodeRequest.version request ≤ v ≤ 40 →
        qrcode.exceeds_capacity data_bits (QRCodeRequest.data request) v = true) →
  ∃ cause,
    @post_generate_qr F (qrcode.library data_bits make_image save) b
    = (JSONResponse 500 (Detail ("Failed to generate QR Code: " +:+ cause)),
       [call_QRCode (QRCodeRequest.version request) ERROR_CORRECT_H
          (QRCodeRequest.box_size request) (QRCodeRequest.border request);
        call_add_data (QRCodeRequest.data request);
        call_make true]).
Proof.
  intros Hv Hexceeds. exists (str_exn (qrcode.invalid_version 41)).
  destruct (qr_validate_bounds b request Hv) as (Hversion & Hbox & Hborder).
  rewrite (post_generate_qr_run b request Hv).
  unfold qr_encoding, qr_try_block, bind, extern. simpl.
  unfold qrcode.init, qrcode.check_version.
  destruct (QRCodeRequest.box_size request <=? 0) eqn:Hb1; [apply Z.leb_le in Hb1; lia |].
  destruct (QRCodeRequest.border request <? 0) eqn:Hb2; [apply Z.ltb_lt in Hb2; lia |].
  destruct ((QRCodeRequest.version request <? 1) || (40 <? QRCodeRequest.version request))
    eqn:Hb3.
  { apply orb_true_iff in Hb3 as [?%Z.ltb_lt | ?%Z.ltb_lt]; lia. }
  simpl. unfold qrcode.make. simpl.
  rewrite best_fit_overflow; [reflexivity | done |].
  intros v Hrange. specialize (Hexceeds v Hrange).
  unfold qrcode.exceeds_capacity in Hexceeds. apply Z.ltb_lt in Hexceeds.
  unfold qrcode.needed_bits. simpl. lia.
Qed.

(** All versions from [start] to 40 can be checked by running the test. *)
Lemma exceeds_all_versions (data_bits : qrcode.mode_sizes → string → Z) (data : string)
    (start : Z) :
  forallb (qrcode.exceeds_capacity data_bits data) (seqZ start (41 - start)) = true →
  ∀ v, start ≤ v ≤ 40 → qrcode.exceeds_capacity data_bits data v = true.
Proof.
  intros Hall v Hv. rewrite forallb_forall in Hall. apply Hall.
  apply list_elem_of_In, elem_of_seqZ. lia.
Qed.

(** ** The theorems at concrete requests *)

(** The type "qr" is not supported: the answer is the 500. *)
Lemma unsupported_barcode_type_is_500_witness :
  BarcodeRequest.validate (barcode_body "qr" "123456789012")
  = inr {| BarcodeRequest.barcode_type := "qr"; BarcodeRequest.data := "123456789012";
           BarcodeRequest.filename := "barcode.png"; BarcodeRequest.options := ∅ |}
  ∧ ("qr" ∉ supported_barcode_types)
  ∧ sample_post_generate_barcode (barcode_body "qr" "123456789012")
    = (JSONResponse 500
         (Detail ("Failed to generate barcode: 400: Unsupported barcode type: 'qr'. "
                  +:+ "Supported types: ean8, ean13, upca, jan, isbn10, isbn13, issn, "
                  +:+ "code39, code128, pzn, gs1")), []).
Proof.
  split; [reflexivity |]. split; [apply py_in_false; reflexivity |].
  apply (@unsupported_barcode_type_is_500 starlette sample_barcode_library
           (barcode_body "qr" "123456789012")
           {| BarcodeRequest.barcode_type := "qr"; BarcodeRequest.data := "123456789012";
              BarcodeRequest.filename := "barcode.png"; BarcodeRequest.options := ∅ |}).
  - reflexivity.
  - apply py_in_false. reflexivity.
Defined.

(** 5000 letters and version 1: no version holds them, the answer is the 500. *)
Lemma qr_overflow_is_500_witness :
  QRCodeRequest.validate (qr_body (Some (letters 5000)) None (Some 1))
  = inr {| QRCodeRequest.data := letters 5000; QRCodeRequest.filename := "qrcode.png";
           QRCodeRequest.fill_color := "black"; QRCodeRequest.back_color := "white";
           QRCodeRequest.version := 1; QRCodeRequest.box_size := 10;
           QRCodeRequest.border := 4 |}
  ∧ (∀ v, 1 ≤ v ≤ 40 →
          qrcode.exceeds_capacity qrcode.byte_mode_bits (letters 5000) v = true)
  ∧ ∃ cause,
      sample_post_generate_qr (qr_body (Some (letters 5000)) None (Some 1))
      = (JSONResponse 500 (Detail ("Failed to generate QR Code: " +:+ cause)),
         [call_QRCode 1 ERROR_CORRECT_H 10 4; call_add_data (letters 5000);
          call_make true]).
Proof.
  split; [reflexivity |].
  split; [apply exceeds_all_versions; vm_compute; reflexivity |].
  apply (qr_overflow_is_500 starlette qrcode.byte_mode_bits qrcode.QRCode
           (λ qr _ _, inr qr) (λ _ _, (PNG_SIGNATURE, None))
           (qr_body (Some (letters 5000)) None (Some 1))
           {| QRCodeRequest.data := letters 5000; QRCodeRequest.filename := "qrcode.png";
              QRCodeRequest.fill_color := "black"; QRCodeRequest.back_color := "white";
              QRCodeRequest.version := 1; QRCodeRequest.box_size := 10;
              QRCodeRequest.border := 4 |}).
  - reflexivity.
  - apply exceeds_all_versions. vm_compute. reflexivity.
Defined.

(** The cause in that response, with the library as modelled: the search ends
    at 41 and the version setter refuses it. *)
Example qr_overflow_detail :
  sample_post_generate_qr (qr_body (Some (letters 5000)) None (Some 1))
  = (JSONResponse 500
       (Detail "Failed to generate QR Code: Invalid version (was 41, expected 1 to 40)"),
     [call_QRCode 1 ERROR_CORRECT_H 10 4; call_add_data (letters 5000); call_make true]).
Proof. vm_compute. reflexivity. Qed.

(** C2 as stated fails: the 23 bytes of this URL exceed the capacity of
    version 1 at level H (72 bits, 7 bytes in byte mode), the version the
    request names, and the request succeeds; the library has moved to
    version 3. *)
Lemma qr_data_over_requested_version_is_encoded :
  qrcode.exceeds_capacity qrcode.byte_mode_bits "https://www.example.com" 1 = true
  ∧ qrcode.best_fit (qrcode.needed_bits qrcode.byte_mode_bits ["https://www.example.com"]) 1
    = inr 3
  ∧ status (sample_post_generate_qr
              (qr_body (Some "https://www.example.com") None (Some 1))).1 = 200
  ∧ image_body (sample_post_generate_qr
                  (qr_body (Some "https://www.example.com") None (Some 1))).1
    = Some PNG_SIGNATURE.
Proof. repeat split; vm_compute; reflexivity. Qed.

(** A version of 0. *)
Lemma qr_constraint_violation_is_422_witness :
  qr_violates (qr_body (Some "x") None (Some 0)) "version"
  ∧ ∃ errs,
      sample_post_generate_qr (qr_body (Some "x") None (Some 0))
      = (JSONResponse 422 (Errors errs), [])
      ∧ ["body"; "version"] ∈ map loc errs.
Proof.
  assert (Hviol : qr_violates (qr_body (Some "x") None (Some 0)) "version").
  { right. left. split; [reflexivity |]. exists 0. split; [reflexivity | lia]. }
  split; [exact Hviol |].
  exact (@qr_constraint_violation_is_422 starlette sample_qr_library
           (qr_body (Some "x") None (Some 0)) "version" Hviol).
Defined.

(** C3 as stated fails: a version of 0 is answered with 422, not 400. *)
Lemma qr_version_zero_is_422 :
  sample_post_generate_qr (qr_body (Some "x") None (Some 0))
  = (JSONResponse 422 (Errors [{| loc := ["body"; "version"]; type := NotGe 1 |}]), [])
  ∧ status (sample_post_generate_qr (qr_body (Some "x") None (Some 0))).1 ≠ 400.
Proof. split; [reflexivity | discriminate]. Qed.

(** EAN-13 with five digits. *)
Lemma barcode_invalid_data_is_400_witness :
  BarcodeRequest.validate (barcode_body "ean13" "12345")
  = inr {| BarcodeRequest.barcode_type := "ean13"; BarcodeRequest.data := "12345";
           BarcodeRequest.filename := "barcode.png"; BarcodeRequest.options := ∅ |}
  ∧ "ean13" ∈ supported_barcode_types
  ∧ ∃ detail,
      sample_post_generate_barcode (barcode_body "ean13" "12345")
      = (JSONResponse 400 (Detail detail),
         [call_barcode_get "ean13"; call_barcode_class "12345"])
      ∧ detail = "Invalid data for barcode type '" +:+ "ean13" +:+ "': "
                 +:+ "EAN must have 12 digits, not 5."
                 +:+ ". Please check data format and length."
      ∧ contains detail "ean13"
      ∧ contains detail "EAN must have 12 digits, not 5.".
Proof.
  split; [reflexivity |]. split; [apply py_in_elem_of; reflexivity |].
  apply (@barcode_invalid_data_is_400 starlette sample_barcode_library
           (barcode_body "ean13" "12345")
           {| BarcodeRequest.barcode_type := "ean13"; BarcodeRequest.data := "12345";
              BarcodeRequest.filename := "barcode.png"; BarcodeRequest.options := ∅ |}
           "EAN must have 12 digits, not 5."
           [call_barcode_get "ean13"; call_barcode_class "12345"]).
  - reflexivity.
  - apply py_in_elem_of. reflexivity.
  - reflexivity.
Defined.

(** One byte more than version 40 holds at level H: the search ends at 41. *)
Lemma qr_encoder_fault_is_500_witness :
  QRCodeRequest.validate (qr_body (Some (letters 1274)) None (Some 40))
  = inr {| QRCodeRequest.data := letters 1274; QRCodeRequest.filename := "qrcode.png";
           QRCodeRequest.fill_color := "black"; QRCodeRequest.back_color := "white";
           QRCodeRequest.version := 40; QRCodeRequest.box_size := 10;
           QRCodeRequest.border := 4 |}
  ∧ sample_post_generate_qr (qr_body (Some (letters 1274)) None (Some 40))
    = (JSONResponse 500
         (Detail ("Failed to generate QR Code: "
                  +:+ @str_exn starlette
                        (qrcode.ValueError "Invalid version (was 41, expected 1 to 40)"))),
       [call_QRCode 40 ERROR_CORRECT_H 10 4; call_add_data (letters 1274);
        call_make true]).
Proof.
  split; [reflexivity |].
  apply (@qr_encoder_fault_is_500 starlette sample_qr_library
           (qr_body (Some (letters 1274)) None (Some 40))
           {| QRCodeRequest.data := letters 1274; QRCodeRequest.filename := "qrcode.png";
              QRCodeRequest.fill_color := "black"; QRCodeRequest.back_color := "white";
              QRCodeRequest.version := 40; QRCodeRequest.box_size := 10;
              QRCodeRequest.border := 4 |}
           (qrcode.ValueError "Invalid version (was 41, expected 1 to 40)")
           [call_QRCode 40 ERROR_CORRECT_H 10 4; call_add_data (letters 1274);
            call_make true]).
  - reflexivity.
  - vm_compute. reflexivity.
Defined.



(** A filename with quotes and a path in it comes back as it was sent. *)
Lemma content_disposition_is_requested_filename_witness :
  sample_app (POST_generate_qr (qr_body (Some "hello") (Some special_filename) None))
  = ((sample_app (POST_generate_qr (qr_body (Some "hello") (Some special_filename) None))).1,
     [call_QRCode 1 ERROR_CORRECT_H 10 4; call_add_data "hello"; call_make true;
      call_make_image "black" "white"; call_save "PNG"])
  ∧ status (sample_app
              (POST_generate_qr (qr_body (Some "hello") (Some special_filename) None))).1
    = 200
  ∧ requested_filename
      (POST_generate_qr (qr_body (Some "hello") (Some special_filename) None))
    = Some special_filename
  ∧ header "Content-Disposition"
      (sample_app
         (POST_generate_qr (qr_body (Some "hello") (Some special_filename) None))).1
    = Some ("inline; filename=" +:+ dq +:+ special_filename +:+ dq).
Proof.
  assert (Happ :
    sample_app (POST_generate_qr (qr_body (Some "hello") (Some special_filename) None))
    = ((sample_app
          (POST_generate_qr (qr_body (Some "hello") (Some special_filename) None))).1,
       [call_QRCode 1 ERROR_CORRECT_H 10 4; call_add_data "hello"; call_make true;
        call_make_image "black" "white"; call_save "PNG"])) by reflexivity.
  split; [exact Happ |]. split; [reflexivity |]. split; [reflexivity |].
  apply (@content_disposition_is_requested_filename starlette sample_qr_library
           sample_barcode_library
           (POST_generate_qr (qr_body (Some "hello") (Some special_filename) None))
           _ _ special_filename Happ); reflexivity.
Defined.



(** The upper-case spelling of a supported name. *)
Lemma barcode_type_test_is_exact_witness :
  "ean13" ∈ supported_barcode_types
  ∧ "EAN13" ≠ "ean13"
  ∧ lower (strip "EAN13") = "ean13"
  ∧ (∀ ty, py_in ty supported_barcode_types = true ↔
           ty = "ean8" ∨ ty = "ean13" ∨ ty = "upca" ∨ ty = "jan" ∨ ty = "isbn10"
           ∨ ty = "isbn13" ∨ ty = "issn" ∨ ty = "code39" ∨ ty = "code128"
           ∨ ty = "pzn" ∨ ty = "gs1")
  ∧ py_in "EAN13" supported_barcode_types = false
  ∧ @barcode_try_block sample_barcode_library "EAN13" "123456789012" ∅ []
    = (inl (HTTPException 400 (unsupported_detail "EAN13")), []).
Proof.
  split; [apply py_in_elem_of; reflexivity |]. split; [discriminate |].
  split; [reflexivity |].
  apply (@barcode_type_test_is_exact sample_barcode_library "EAN13" "ean13").
  - apply py_in_elem_of. reflexivity.
  - discriminate.
  - reflexivity.
Defined.

(** The other example of C9: a trailing space. *)
Example barcode_type_trailing_space :
  lower (strip "ean13 ") = "ean13"
  ∧ sample_post_generate_barcode (barcode_body "ean13 " "123456789012")
    = (JSONResponse 500
         (Detail ("Failed to generate barcode: 400: Unsupported barcode type: 'ean13 '. "
                  +:+ "Supported types: ean8, ean13, upca, jan, isbn10, isbn13, issn, "
                  +:+ "code39, code128, pzn, gs1")), []).
Proof. split; reflexivity. Qed.

(** A request with [options] and without [filename]: the writer gets the
    mapping of the request and leaves the text out; with the empty mapping it
    would have written it. *)
Lemma barcode_defaults_and_options_witness :
  BarcodeRequest.validate barcode_body_with_options
  = inr {| BarcodeRequest.barcode_type := "code128"; BarcodeRequest.data := "AB";
           BarcodeRequest.filename := "barcode.png";
           BarcodeRequest.options := {[ "write_text" := JBool false ]} |}
  ∧ @post_generate_barcode starlette text_writer_library barcode_body_with_options
    = (StreamingResponse {| getvalue := PNG_SIGNATURE; tell := 0 |} "image/png"
         {[ "Content-Disposition" := "inline; filename=" +:+ dq +:+ "barcode.png" +:+ dq ]},
       [call_barcode_get "code128"; call_barcode_class "AB";
        call_write {[ "write_text" := JBool false ]}])
  ∧ (@lib_write text_writer_library "AB" ∅).1 = PNG_SIGNATURE ++ [Byte.x41; Byte.x42].
Proof.
  assert (Hv :
    BarcodeRequest.validate barcode_body_with_options
    = inr {| BarcodeRequest.barcode_type := "code128"; BarcodeRequest.data := "AB";
             BarcodeRequest.filename := "barcode.png";
             BarcodeRequest.options := {[ "write_text" := JBool false ]} |})
    by reflexivity.
  split; [exact Hv |]. split; [| reflexivity].
  destruct (@barcode_defaults_and_options starlette text_writer_library _ _ Hv)
    as (_ & _ & _ & _ & Hwrite).
  destruct (Hwrite "code128" "AB") as [Hcalls Hresp];
    [apply py_in_elem_of; reflexivity | reflexivity | reflexivity |].
  rewrite (surjective_pairing (post_generate_barcode _)), Hcalls, Hresp.
  reflexivity.
Defined.

(** * Further properties of the handlers *)

(** ** What leaves the helpers *)

Section Helpers.
Context `{Framework} `{QRLibrary} `{BarcodeLibrary}.

(** The [try] blocks only add to the log of calls. *)
Lemma qr_try_block_log (data fill_color back_color : string) (version box_size border : Z)
    (t : list call) :
  ∃ cs, (qr_try_block data fill_color back_color version box_size border t).2 = t ++ cs.
Proof.
  unfold qr_try_block, bind, extern, writing, ret.
  destruct (lib_QRCode _ _ _ _) as [e | qr0]; [by eexists |].
  destruct (lib_add_data _ _) as [e | qr1]; simpl; [by rewrite <- app_assoc; eexists |].
  destruct (lib_make _ _) as [e | qr2]; simpl; [by rewrite <- !app_assoc; eexists |].
  destruct (lib_make_image _ _ _) as [e | img]; simpl; [by rewrite <- !app_assoc; eexists |].
  destruct (lib_save img "PNG") as [image [e |]]; simpl; by rewrite <- !app_assoc; eexists.
Qed.

Lemma barcode_try_block_log (barcode_type data : string) (options : gmap string json)
    (t : list call) :
  ∃ cs, (barcode_try_block barcode_type data options t).2 = t ++ cs.
Proof.
  unfold barcode_try_block, bind, extern, writing, ret, raise.
  destruct (py_in barcode_type supported_barcode_types); simpl;
    [| by exists []; rewrite app_nil_r].
  destruct (lib_barcode_get _) as [e | cls]; [by eexists |].
  destruct (lib_barcode_class _ _) as [e | obj]; simpl; [by rewrite <- app_assoc; eexists |].
  destruct (lib_write _ _) as [image [e |]]; simpl; by rewrite <- !app_assoc; eexists.
Qed.

(** Whatever its arguments (also values validation would refuse) and whatever
    the library does, the only exception that leaves
    [_generate_qr_code_image_bytes] is an [HTTPException] with status 500 and
    the detail "Failed to generate QR Code: <cause>"; the calls already logged
    are kept. *)
Theorem qr_helper_raises_only_500
    (data fill_color back_color : string) (version box_size border : Z)
    (t t' : list call) (e : exn) :
  _generate_qr_code_image_bytes data fill_color back_color version box_size border t
  = (inl e, t') →
  ∃ cause cs,
    qr_try_block data fill_color back_color version box_size border t = (inl cause, t')
    ∧ e = HTTPException 500 ("Failed to generate QR Code: " +:+ str_exn cause)
    ∧ t' = t ++ cs.
Proof.
  unfold _generate_qr_code_image_bytes, try_except.
  destruct (qr_try_block_log data fill_color back_color version box_size border t)
    as [cs Hlog].
  destruct (qr_try_block _ _ _ _ _ _ t) as [[cause | stream] t0]; simpl in *;
    intros [= <- <-]. by exists cause, cs.
Qed.

(** The only exceptions that leave [_generate_barcode_image_bytes] are an
    [HTTPException] 400 with the invalid-data detail, when the [try] block
    raised a [BarcodeError], and an [HTTPException] 500 with the failure
    detail, when it raised anything else. *)
Theorem barcode_helper_raises_only_400_or_500
    (barcode_type data : string) (options : gmap string json)
    (t t' : list call) (e : exn) :
  _generate_barcode_image_bytes barcode_type data options t = (inl e, t') →
  ∃ cause cs,
    barcode_try_block barcode_type data options t = (inl cause, t')
    ∧ t' = t ++ cs
    ∧ ((isinstance cause cls_BarcodeError = true
        ∧ e = HTTPException 400
                ("Invalid data for barcode type '" +:+ barcode_type +:+ "': "
                 +:+ str_exn cause +:+ ". Please check data format and length."))
       ∨ (isinstance cause cls_BarcodeError = false
          ∧ e = HTTPException 500 ("Failed to generate barcode: " +:+ str_exn cause))).
Proof.
  unfold _generate_barcode_image_bytes, try_except.
  destruct (barcode_try_block_log barcode_type data options t) as [cs Hlog].
  destruct (barcode_try_block _ _ _ t) as [[cause | stream] t0]; simpl in *;
    [| discriminate].
  destruct cause as [s d | msg | cls msg]; simpl; intros [= <- <-];
    eexists _, cs; (split; [reflexivity |]); (split; [done |]); auto.
Qed.
End Helpers.

(** ** The outcomes of the endpoints *)

Section Outcomes.
Context `{Framework} `{QRLibrary} `{BarcodeLibrary}.

(** The QR [try] block, call by call. *)
Lemma qr_encoding_cases (request : QRCodeRequest.t) :
  (qr_encoding request).2 `prefix_of` qr_calls request
  ∧ (∀ stream, (qr_encoding request).1 = inr stream →
               (qr_encoding request).2 = qr_calls request).
Proof.
  unfold qr_encoding, qr_try_block, qr_calls, bind, extern, writing, ret. simpl.
  destruct (lib_QRCode _ _ _ _) as [e | qr0]; simpl; [split; [by eexists | done] |].
  destruct (lib_add_data _ _) as [e | qr1]; simpl; [split; [by eexists | done] |].
  destruct (lib_make _ _) as [e | qr2]; simpl; [split; [by eexists | done] |].
  destruct (lib_make_image _ _ _) as [e | img]; simpl; [split; [by eexists | done] |].
  destruct (lib_save img "PNG") as [image [e |]]; simpl; (split; [by exists [] | done]).
Qed.

(** POST /generate-qr has four outcomes and never answers 400: the 422 when
    validation fails; the JSON 500 of the helper when the [try] block raises;
    when the [try] block returns, the 200 if the filename can be encoded as
    Latin-1 and the plain 500 of the framework if it cannot. *)
Theorem qr_status_is_200_422_or_500 (b : QRCodeRequest.body) :
  ((status (post_generate_qr b).1 = 422
    ∧ ∃ errs, QRCodeRequest.validate b = inl errs)
   ∨ (status (post_generate_qr b).1 = 500
      ∧ ∃ request e, QRCodeRequest.validate b = inr request
                     ∧ (qr_encoding request).1 = inl e
                     ∧ (post_generate_qr b).1
                       = JSONResponse 500 (Detail (qr_failure_detail (str_exn e))))
   ∨ (status (post_generate_qr b).1 = 500
      ∧ ∃ request stream, QRCodeRequest.validate b = inr request
                          ∧ (qr_encoding request).1 = inr stream
                          ∧ latin1_encodable (QRCodeRequest.filename request) = false
                          ∧ (post_generate_qr b).1 = ServerError)
   ∨ (status (post_generate_qr b).1 = 200
      ∧ ∃ request stream, QRCodeRequest.validate b = inr request
                          ∧ (qr_encoding request).1 = inr stream
                          ∧ latin1_encodable (QRCodeRequest.filename request) = true
                          ∧ image_body (post_generate_qr b).1 = Some (BytesIO_read stream)))
  ∧ status (post_generate_qr b).1 ≠ 400.
Proof.
  destruct (QRCodeRequest.validate b) as [errs | request] eqn:Hv.
  - rewrite (post_generate_qr_invalid b errs Hv). split; [| done].
    left. split; [done | by exists errs].
  - rewrite (post_generate_qr_run b request Hv).
    destruct (qr_encoding request) as [[e | stream] t] eqn:Henc.
    + split; [| done]. right. left. split; [done |]. exists request, e. by rewrite Henc.
    + destruct (latin1_encodable _) eqn:Hlatin; (split; [| done]).
      * do 3 right. split; [done |]. exists request, stream. by rewrite Henc.
      * do 2 right. left. split; [done |]. exists request, stream. by rewrite Henc.
Qed.

(** The calls of a QR request are made in the order of the [try] block, with
    the fields of the request or their defaults (version 1, box size 10,
    border 4, black on white), level H, [fit=True] and the PNG format, each on
    the result of the call before it.  The first call that raises is the last
    one made, and its exception is the cause of the 500; a 200 means that all
    five were made. *)
Theorem qr_calls_in_order (b : QRCodeRequest.body) (request : QRCodeRequest.t) :
  QRCodeRequest.validate b = inr request →
  qr_calls request
  = [call_QRCode (default 1 (QRCodeRequest.j_version b)) 2
       (default 10 (QRCodeRequest.j_box_size b)) (default 4 (QRCodeRequest.j_border b));
     call_add_data (QRCodeRequest.data request);
     call_make true;
     call_make_image (default "black" (QRCodeRequest.j_fill_color b))
       (default "white" (QRCodeRequest.j_back_color b));
     call_save "PNG"]
  ∧ (post_generate_qr b).2 `prefix_of` qr_calls request
  ∧ (status (post_generate_qr b).1 = 200 → (post_generate_qr b).2 = qr_calls request)
  ∧ (∀ e,
       lib_QRCode (default 1 (QRCodeRequest.j_version b)) 2
         (default 10 (QRCodeRequest.j_box_size b)) (default 4 (QRCodeRequest.j_border b))
       = inl e →
       post_generate_qr b
       = (JSONResponse 500 (Detail (qr_failure_detail (str_exn e))),
          take 1 (qr_calls request)))
  ∧ (∀ qr0 e,
       lib_QRCode (default 1 (QRCodeRequest.j_version b)) 2
         (default 10 (QRCodeRequest.j_box_size b)) (default 4 (QRCodeRequest.j_border b))
       = inr qr0 →
       lib_add_data qr0 (QRCodeRequest.data request) = inl e →
       post_generate_qr b
       = (JSONResponse 500 (Detail (qr_failure_detail (str_exn e))),
          take 2 (qr_calls request)))
  ∧ (∀ qr0 qr1 e,
       lib_QRCode (default 1 (QRCodeRequest.j_version b)) 2
         (default 10 (QRCodeRequest.j_box_size b)) (default 4 (QRCodeRequest.j_border b))
       = inr qr0 →
       lib_add_data qr0 (QRCodeRequest.data request) = inr qr1 →
       lib_make qr1 true = inl e →
       post_generate_qr b
       = (JSONResponse 500 (Detail (qr_failure_detail (str_exn e))),
          take 3 (qr_calls request)))
  ∧ (∀ qr0 qr1 qr2 e,
       lib_QRCode (default 1 (QRCodeRequest.j_version b)) 2
         (default 10 (QRCodeRequest.j_box_size b)) (default 4 (QRCodeRequest.j_border b))
       = inr qr0 →
       lib_add_data qr0 (QRCodeRequest.data request) = inr qr1 →
       lib_make qr1 true = inr qr2 →
       lib_make_image qr2 (default "black" (QRCodeRequest.j_fill_color b))
         (default "white" (QRCodeRequest.j_back_color b)) = inl e →
       post_generate_qr b
       = (JSONResponse 500 (Detail (qr_failure_detail (str_exn e))),
          take 4 (qr_calls request)))
  ∧ (∀ qr0 qr1 qr2 img image e,
       lib_QRCode (default 1 (QRCodeRequest.j_version b)) 2
         (default 10 (QRCodeRequest.j_box_size b)) (default 4 (QRCodeRequest.j_border b))
       = inr qr0 →
       lib_add_data qr0 (QRCodeRequest.data request) = inr qr1 →
       lib_make qr1 true = inr qr2 →
       lib_make_image qr2 (default "black" (QRCodeRequest.j_fill_color b))
         (default "white" (QRCodeRequest.j_back_color b)) = inr img →
       lib_save img "PNG" = (image, Some e) →
       post_generate_qr b
       = (JSONResponse 500 (Detail (qr_failure_detail (str_exn e))), qr_calls request))
  ∧ (∀ qr0 qr1 qr2 img image,
       lib_QRCode (default 1 (QRCodeRequest.j_version b)) 2
         (default 10 (QRCodeRequest.j_box_size b)) (default 4 (QRCodeRequest.j_border b))
       = inr qr0 →
       lib_add_data qr0 (QRCodeRequest.data request) = inr qr1 →
       lib_make qr1 true = inr qr2 →
       lib_make_image qr2 (default "black" (QRCodeRequest.j_fill_color b))
         (default "white" (QRCodeRequest.j_back_color b)) = inr img →
       lib_save img "PNG" = (image, None) →
       post_generate_qr b
       = (if latin1_encodable (default "qrcode.png" (QRCodeRequest.j_filename b))
          then StreamingResponse (BytesIO_seek 0 (BytesIO_write image BytesIO_new))
                 "image/png"
                 {[ "Content-Disposition" :=
                      content_disposition
                        (default "qrcode.png" (QRCodeRequest.j_filename b)) ]}
          else ServerError, qr_calls request)).
Proof.
  intros Hv.
  destruct (qr_validate_inr b request Hv) as (_ & _ & Hf & Hfill & Hback & Hver & Hbox & Hbor).
  split; [unfold qr_calls; by rewrite Hfill, Hback, Hver, Hbox, Hbor |].
  rewrite (post_generate_qr_run b request Hv),
    <- Hf, <- Hfill, <- Hback, <- Hver, <- Hbox, <- Hbor.
  destruct (qr_encoding_cases request) as [Hprefix Hfull].
  split; [| split].
  - by destruct (qr_encoding request) as [[e | stream] t].
  - destruct (qr_encoding request) as [[e | stream] t]; [discriminate |].
    intros _. by apply (Hfull stream).
  - unfold qr_encoding, qr_try_block, qr_calls, bind, extern, writing, ret,
      ERROR_CORRECT_H. simpl.
    repeat split.
    + by intros e ->.
    + by intros qr0 e -> ->.
    + by intros qr0 qr1 e -> -> ->.
    + by intros qr0 qr1 qr2 e -> -> -> ->.
    + by intros qr0 qr1 qr2 img image e -> -> -> -> ->.
    + by intros qr0 qr1 qr2 img image -> -> -> -> ->.
Qed.

(** The calls of a barcode request: none for an unsupported type, otherwise
    [get] on the type, the class on the data and [write] with the options, in
    this order and each on the result of the call before it.  The first call
    that raises is the last one made, and its exception decides the response;
    a 200 means that all three were made. *)
Theorem barcode_calls_in_order (b : BarcodeRequest.body) (request : BarcodeRequest.t) :
  BarcodeRequest.validate b = inr request →
  (post_generate_barcode b).2 `prefix_of` barcode_calls request
  ∧ ((post_generate_barcode b).2 = [] ↔
     BarcodeRequest.barcode_type request ∉ supported_barcode_types)
  ∧ (status (post_generate_barcode b).1 = 200 →
     (post_generate_barcode b).2 = barcode_calls request)
  ∧ (BarcodeRequest.barcode_type request ∈ supported_barcode_types →
     (∀ e,
        lib_barcode_get (BarcodeRequest.barcode_type request) = inl e →
        post_generate_barcode b
        = (barcode_error_response (BarcodeRequest.barcode_type request) e,
           take 1 (barcode_calls request)))
     ∧ (∀ cls e,
          lib_barcode_get (BarcodeRequest.barcode_type request) = inr cls →
          lib_barcode_class cls (BarcodeRequest.data request) = inl e →
          post_generate_barcode b
          = (barcode_error_response (BarcodeRequest.barcode_type request) e,
             take 2 (barcode_calls request)))
     ∧ (∀ cls obj image e,
          lib_barcode_get (BarcodeRequest.barcode_type request) = inr cls →
          lib_barcode_class cls (BarcodeRequest.data request) = inr obj →
          lib_write obj (BarcodeRequest.options request) = (image, Some e) →
          post_generate_barcode b
          = (barcode_error_response (BarcodeRequest.barcode_type request) e,
             barcode_calls request))
     ∧ (∀ cls obj image,
          lib_barcode_get (BarcodeRequest.barcode_type request) = inr cls →
          lib_barcode_class cls (BarcodeRequest.data request) = inr obj →
          lib_write obj (BarcodeRequest.options request) = (image, None) →
          post_generate_barcode b
          = (if latin1_encodable (BarcodeRequest.filename request)
             then StreamingResponse (BytesIO_seek 0 (BytesIO_write image BytesIO_new))
                    "image/png"
                    {[ "Content-Disposition" :=
                         content_disposition (BarcodeRequest.filename request) ]}
             else ServerError, barcode_calls request))).
Proof.
  intros Hv. rewrite (post_generate_barcode_run b request Hv). unfold barcode_calls.
  destruct (decide (BarcodeRequest.barcode_type request ∈ supported_barcode_types))
    as [Hs | Hn].
  - rewrite (barcode_encoding_supported request Hs).
    assert (Hne : ∀ (c : call) cs,
              c :: cs = [] ↔ BarcodeRequest.barcode_type request ∉ supported_barcode_types)
      by (intros c cs; split; [discriminate | done]).
    split; [| split; [| split]].
    + destruct (lib_barcode_get _) as [e | cls]; [by destruct e; eexists |].
      destruct (lib_barcode_class _ _) as [e | obj]; [by destruct e; eexists |].
      destruct (lib_write obj _) as [image [e |]]; [destruct e |]; by exists [].
    + destruct (lib_barcode_get _) as [e | cls]; [destruct e; apply Hne |].
      destruct (lib_barcode_class _ _) as [e | obj]; [destruct e; apply Hne |].
      destruct (lib_write obj _) as [image [e |]]; [destruct e |]; apply Hne.
    + destruct (lib_barcode_get _) as [e | cls]; [by destruct e |].
      destruct (lib_barcode_class _ _) as [e | obj]; [by destruct e |].
      by destruct (lib_write obj _) as [image [e |]]; [destruct e |].
    + intros _. repeat split.
      * intros e ->. by destruct e.
      * intros cls e -> ->. by destruct e.
      * intros cls obj image e -> -> ->. by destruct e.
      * by intros cls obj image -> -> ->.
  - rewrite (barcode_encoding_unsupported request Hn). simpl.
    split; [by eexists |]. split; [done |]. split; [discriminate | done].
Qed.

(** An exception of the barcode [try] block that is not a [BarcodeError] is
    answered with 500 and "Failed to generate barcode: <cause>". *)
Theorem barcode_other_fault_is_500
    (b : BarcodeRequest.body) (request : BarcodeRequest.t) (e : exn) (t : list call) :
  BarcodeRequest.validate b = inr request →
  barcode_encoding request = (inl e, t) →
  isinstance e cls_BarcodeError = false →
  post_generate_barcode b
  = (JSONResponse 500 (Detail ("Failed to generate barcode: " +:+ str_exn e)), t).
Proof.
  intros Hv He Hclass. rewrite (post_generate_barcode_run b request Hv), He.
  by destruct e.
Qed.

(** A 400 from POST /generate-barcode always comes from a [BarcodeError] that
    the library raised for a supported type: it is the invalid-data response.
    An unsupported type never gives a 400. *)
Theorem barcode_400_means_BarcodeError (b : BarcodeRequest.body) :
  status (post_generate_barcode b).1 = 400 →
  ∃ request cause t,
    BarcodeRequest.validate b = inr request
    ∧ BarcodeRequest.barcode_type request ∈ supported_barcode_types
    ∧ barcode_encoding request = (inl (BarcodeError cause), t)
    ∧ post_generate_barcode b
      = (JSONResponse 400
           (Detail ("Invalid data for barcode type '"
                    +:+ BarcodeRequest.barcode_type request +:+ "': " +:+ cause
                    +:+ ". Please check data format and length.")), t).
Proof.
  destruct (BarcodeRequest.validate b) as [errs | request] eqn:Hv.
  { rewrite (post_generate_barcode_invalid b errs Hv). discriminate. }
  rewrite (post_generate_barcode_run b request Hv).
  destruct (decide (BarcodeRequest.barcode_type request ∈ supported_barcode_types))
    as [Hs | Hn].
  - destruct (barcode_encoding request) as [[[s d | cause | cls msg] | stream] t]
      eqn:Henc; simpl; try discriminate.
    + intros _. by exists request, cause, t.
    + by destruct (latin1_encodable _).
  - rewrite (barcode_encoding_unsupported request Hn). discriminate.
Qed.

(** A successful POST response is an [image/png] stream whose only header
    from the endpoint is [Content-Disposition]. *)
Theorem success_is_png (r : request) :
  r ≠ GET_root →
  status (app r).1 = 200 →
  media_type (app r).1 = Some "image/png"
  ∧ dom (headers_given (app r).1) = {[ "Content-Disposition" ]}.
Proof.
  destruct r as [b | b |]; [| | done]; intros _; unfold app.
  - destruct (QRCodeRequest.validate b) as [errs | request] eqn:Hv.
    { rewrite (post_generate_qr_invalid b errs Hv). discriminate. }
    rewrite (post_generate_qr_run b request Hv).
    destruct (qr_encoding request) as [[e | stream] t]; [discriminate |].
    destruct (latin1_encodable _); [| discriminate].
    intros _. simpl. by rewrite dom_singleton_L.
  - destruct (BarcodeRequest.validate b) as [errs | request] eqn:Hv.
    { rewrite (post_generate_barcode_invalid b errs Hv). discriminate. }
    rewrite (post_generate_barcode_run b request Hv).
    destruct (barcode_encoding request) as [[[s d | cause | cls msg] | stream] t];
      try discriminate.
    destruct (latin1_encodable _); [| discriminate].
    intros _. simpl. by rewrite dom_singleton_L.
Qed.

End Outcomes.

(** ** What validation accepts *)

(** A QR body is accepted exactly when it violates none of the declared
    constraints; the bounds are inclusive, and what the endpoint then gets is
    within them, the defaults included. *)
Theorem qr_validation_is_the_constraints (b : QRCodeRequest.body) :
  ((∃ request, QRCodeRequest.validate b = inr request) ↔
   (∀ field, ¬ qr_violates b field))
  ∧ (∀ request, QRCodeRequest.validate b = inr request →
                1 ≤ QRCodeRequest.version request ≤ 40
                ∧ 1 ≤ QRCodeRequest.box_size request
                ∧ 0 ≤ QRCodeRequest.border request).
Proof.
  split; [split |].
  - intros [request Hv] field Hviol.
    destruct (qr_validate_inr b request Hv) as (Herr & _).
    pose proof (qr_violation_named b field Hviol) as Hnamed.
    rewrite Herr in Hnamed. by apply elem_of_nil in Hnamed.
  - intros Hnone.
    destruct (QRCodeRequest.j_data b) as [d |] eqn:Hd.
    + unfold QRCodeRequest.validate.
      rewrite (qr_no_other_violation b d), Hd; [by eexists | | done].
      intros field Hviol. by destruct (Hnone field).
    + destruct (Hnone "data"). left. by split.
  - apply qr_validate_bounds.
Qed.

Section BarcodeValidation.
Context `{Framework} `{BarcodeLibrary}.

(** A barcode body is accepted exactly when [barcode_type] and [data] are
    present, whatever the two strings are: the type is not checked against
    the supported names here.  Each missing field is named in the 422, and no
    library call is made. *)
Theorem barcode_validation_is_presence (b : BarcodeRequest.body) :
  ((∃ request, BarcodeRequest.validate b = inr request) ↔
   (is_Some (BarcodeRequest.j_barcode_type b) ∧ is_Some (BarcodeRequest.j_data b)))
  ∧ (∀ request, BarcodeRequest.validate b = inr request →
                BarcodeRequest.j_barcode_type b = Some (BarcodeRequest.barcode_type request)
                ∧ BarcodeRequest.j_data b = Some (BarcodeRequest.data request))
  ∧ (∀ field,
       (field = "barcode_type" ∧ BarcodeRequest.j_barcode_type b = None)
       ∨ (field = "data" ∧ BarcodeRequest.j_data b = None) →
       ∃ errs, post_generate_barcode b = (JSONResponse 422 (Errors errs), [])
               ∧ ["body"; field] ∈ map loc errs).
Proof.
  split; [split |].
  - intros [request Hv].
    destruct (barcode_validate_inr b request Hv) as (Hty & Hd & _).
    rewrite Hty, Hd. by split.
  - intros [[ty Hty] [d Hd]]. unfold BarcodeRequest.validate, BarcodeRequest.errors.
    rewrite Hty, Hd. by eexists.
  - split.
    + intros request Hv. destruct (barcode_validate_inr b request Hv) as (Hty & Hd & _).
      by split.
    + intros field Hmissing. exists (BarcodeRequest.errors b). split.
      * apply post_generate_barcode_invalid.
        unfold BarcodeRequest.validate, BarcodeRequest.errors.
        destruct Hmissing as [[_ Hm] | [_ Hm]]; rewrite Hm; simpl;
          [done | by destruct (BarcodeRequest.j_barcode_type b)].
      * unfold BarcodeRequest.errors. rewrite map_app, elem_of_app.
        destruct Hmissing as [[-> Hm] | [-> Hm]]; [left | right];
          by apply required_named.
Qed.

End BarcodeValidation.

(** ** The stream of a helper

    A helper writes into a fresh [BytesIO] and rewinds it before it returns
    it: the stream a helper returns holds what the last library call wrote,
    with its position at the start, so that reading it yields all of it. *)
Section Streams.
Context `{Framework} `{QRLibrary} `{BarcodeLibrary}.

(** When [_generate_qr_code_image_bytes] returns a stream, every library
    call returned, on the arguments of the helper and the result of the call
    before it; the stream holds what [save] wrote and is at position 0, so
    that reading it yields the whole image. *)
Theorem qr_helper_stream_is_rewound
    (data fill_color back_color : string) (version box_size border : Z)
    (t t' : list call) (stream : BytesIO) :
  _generate_qr_code_image_bytes data fill_color back_color version box_size border t
  = (inr stream, t') →
  ∃ qr0 qr1 qr2 img image,
    lib_QRCode version ERROR_CORRECT_H box_size border = inr qr0
    ∧ lib_add_data qr0 data = inr qr1
    ∧ lib_make qr1 true = inr qr2
    ∧ lib_make_image qr2 fill_color back_color = inr img
    ∧ lib_save img "PNG" = (image, None)
    ∧ getvalue stream = image
    ∧ tell stream = 0%nat
    ∧ BytesIO_read stream = image.
Proof.
  unfold _generate_qr_code_image_bytes, try_except, qr_try_block, bind, extern, writing, ret.
  destruct (lib_QRCode _ _ _ _) as [e | qr0] eqn:Hinit; [discriminate |].
  destruct (lib_add_data _ _) as [e | qr1] eqn:Hadd; [discriminate |].
  destruct (lib_make _ _) as [e | qr2] eqn:Hmake; [discriminate |].
  destruct (lib_make_image _ _ _) as [e | img] eqn:Himg; [discriminate |].
  destruct (lib_save img "PNG") as [image [e |]] eqn:Hsave; simpl; [discriminate |].
  intros [= <- <-]. exists qr0, qr1, qr2, img, image.
  pose proof (BytesIO_fresh_write_read image) as Hread.
  by repeat split.
Qed.

(** When [_generate_barcode_image_bytes] returns a stream, the type is
    supported and every library call returned; the stream holds what [write]
    wrote with the options of the helper and is at position 0. *)
Theorem barcode_helper_stream_is_rewound
    (barcode_type data : string) (options : gmap string json)
    (t t' : list call) (stream : BytesIO) :
  _generate_barcode_image_bytes barcode_type data options t = (inr stream, t') →
  barcode_type ∈ supported_barcode_types
  ∧ ∃ cls obj image,
      lib_barcode_get barcode_type = inr cls
      ∧ lib_barcode_class cls data = inr obj
      ∧ lib_write obj options = (image, None)
      ∧ getvalue stream = image
      ∧ tell stream = 0%nat
      ∧ BytesIO_read stream = image.
Proof.
  unfold _generate_barcode_image_bytes, try_except, barcode_try_block, bind, extern,
    writing, ret, raise.
  destruct (py_in barcode_type supported_barcode_types) eqn:Hin; simpl; [| discriminate].
  apply py_in_elem_of in Hin.
  destruct (lib_barcode_get _) as [[s d | msg | c msg] | cls] eqn:Hget; [discriminate .. |].
  destruct (lib_barcode_class _ _) as [[s d | msg | c msg] | obj] eqn:Hcls;
    [discriminate .. |].
  destruct (lib_write obj options) as [image [[s d | msg | c msg] |]] eqn:Hw; simpl;
    [discriminate .. |].
  intros [= <- <-]. split; [done |]. exists cls, obj, image.
  pose proof (BytesIO_fresh_write_read image) as Hread.
  by repeat split.
Qed.
End Streams.

(** ** The version of a request is a minimum

    With the [qrcode] library as modelled: when the data fits some version
    [v] from the requested one on, the capacity check of [make(fit=True)]
    passes, whether or not the data fits the requested version, and the
    handler goes on to render the image. *)
Theorem qr_fit_reaches_rendering
    (F : Framework) (data_bits : qrcode.mode_sizes → string → Z) (Image : Type)
    (make_image : qrcode.QRCode → string → string → exn + Image)
    (save : Image → string → bytes * option exn)
    (b : QRCodeRequest.body) (request : QRCodeRequest.t) (v : Z) :
  QRCodeRequest.validate b = inr request →
  (∀ u u', u ≤ u' →
           data_bits (qrcode.mode_sizes_for_version u) (QRCodeRequest.data request)
           ≤ data_bits (qrcode.mode_sizes_for_version u') (QRCodeRequest.data request)) →
  QRCodeRequest.version request ≤ v ≤ 40 →
  qrcode.exceeds_capacity data_bits (QRCodeRequest.data request) v = false →
  ∃ t,
    (@post_generate_qr F (qrcode.library data_bits make_image save) b).2
    = [call_QRCode (QRCodeRequest.version request) ERROR_CORRECT_H
         (QRCodeRequest.box_size request) (QRCodeRequest.border request);
       call_add_data (QRCodeRequest.data request);
       call_make true;
       call_make_image (QRCodeRequest.fill_color request)
         (QRCodeRequest.back_color request)] ++ t.
Proof.
  intros Hv Hmono Hrange Hfits.
  destruct (qr_validate_bounds b request Hv) as (Hversion & Hbox & Hborder).
  rewrite (post_generate_qr_run b request Hv).
  unfold qr_encoding, qr_try_block, bind, extern, writing, ret. simpl.
  unfold qrcode.init, qrcode.check_version.
  destruct (QRCodeRequest.box_size request <=? 0) eqn:Hb1; [apply Z.leb_le in Hb1; lia |].
  destruct (QRCodeRequest.border request <? 0) eqn:Hb2; [apply Z.ltb_lt in Hb2; lia |].
  destruct ((QRCodeRequest.version request <? 1) || (40 <? QRCodeRequest.version request))
    eqn:Hb3.
  { apply orb_true_iff in Hb3 as [?%Z.ltb_lt | ?%Z.ltb_lt]; lia. }
  simpl.
  unfold qrcode.exceeds_capacity in Hfits. apply Z.ltb_ge in Hfits.
  destruct (make_fit_returns data_bits
              {| qrcode.version := QRCodeRequest.version request;
                 qrcode.error_correction := ERROR_CORRECT_H;
                 qrcode.box_size := QRCodeRequest.box_size request;
                 qrcode.border := QRCodeRequest.border request;
                 qrcode.data_list := [QRCodeRequest.data request] |} v)
    as (v' & Hmake & Hv'); simpl.
  - intros u u' Hu. specialize (Hmono u u' Hu). lia.
  - lia.
  - lia.
  - lia.
  - rewrite Hmake. simpl.
    destruct (make_image _ _ _) as [e | img]; simpl; [by exists [] |].
    destruct (save img "PNG") as [image [e |]]; simpl; by eexists.
Qed.

(** Wider character counts never make byte-mode data shorter. *)
Lemma byte_mode_bits_monotone (data : string) (u u' : Z) :
  u ≤ u' →
  qrcode.byte_mode_bits (qrcode.mode_sizes_for_version u) data
  ≤ qrcode.byte_mode_bits (qrcode.mode_sizes_for_version u') data.
Proof.
  intros Hu. unfold qrcode.byte_mode_bits, qrcode.mode_sizes_for_version.
  destruct (decide (data = "")); [lia |].
  destruct (Z.ltb_spec u 10), (Z.ltb_spec u' 10); try lia;
    destruct (Z.ltb_spec u 27), (Z.ltb_spec u' 27); lia.
Qed.

(** ** The further properties at concrete requests *)

(** A version of 0, which validation would refuse, given to the helper
    directly: the library's [ValueError] leaves it as a 500. *)
Lemma qr_helper_raises_only_500_witness :
  @_generate_qr_code_image_bytes starlette sample_qr_library "x" "black" "white" 0 10 4 []
  = (inl (HTTPException 500
            "Failed to generate QR Code: Invalid version (was 0, expected 1 to 40)"),
     [call_QRCode 0 ERROR_CORRECT_H 10 4])
  ∧ ∃ cause cs,
      @qr_try_block sample_qr_library "x" "black" "white" 0 10 4 []
      = (inl cause, [call_QRCode 0 ERROR_CORRECT_H 10 4])
      ∧ HTTPException 500
          "Failed to generate QR Code: Invalid version (was 0, expected 1 to 40)"
        = HTTPException 500 ("Failed to generate QR Code: " +:+ @str_exn starlette cause)
      ∧ [call_QRCode 0 ERROR_CORRECT_H 10 4] = [] ++ cs.
Proof.
  assert (Hrun :
    @_generate_qr_code_image_bytes starlette sample_qr_library "x" "black" "white" 0 10 4 []
    = (inl (HTTPException 500
              "Failed to generate QR Code: Invalid version (was 0, expected 1 to 40)"),
       [call_QRCode 0 ERROR_CORRECT_H 10 4])) by reflexivity.
  split; [exact Hrun |].
  exact (@qr_helper_raises_only_500 starlette sample_qr_library
           "x" "black" "white" 0 10 4 [] _ _ Hrun).
Defined.

(** The writer fails: the [OSError] leaves the barcode helper as a 500. *)
Lemma barcode_helper_raises_only_400_or_500_witness :
  @_generate_barcode_image_bytes starlette failing_writer_library "code128" "ABC" ∅ []
  = (inl (HTTPException 500 "Failed to generate barcode: cannot open resource"),
     [call_barcode_get "code128"; call_barcode_class "ABC"; call_write ∅])
  ∧ ∃ cause cs,
      @barcode_try_block failing_writer_library "code128" "ABC" ∅ []
      = (inl cause, [call_barcode_get "code128"; call_barcode_class "ABC"; call_write ∅])
      ∧ [call_barcode_get "code128"; call_barcode_class "ABC"; call_write ∅] = [] ++ cs
      ∧ ((isinstance cause cls_BarcodeError = true
          ∧ HTTPException 500 "Failed to generate barcode: cannot open resource"
            = HTTPException 400
                ("Invalid data for barcode type '" +:+ "code128" +:+ "': "
                 +:+ @str_exn starlette cause
                 +:+ ". Please check data format and length."))
         ∨ (isinstance cause cls_BarcodeError = false
            ∧ HTTPException 500 "Failed to generate barcode: cannot open resource"
              = HTTPException 500
                  ("Failed to generate barcode: " +:+ @str_exn starlette cause))).
Proof.
  assert (Hrun :
    @_generate_barcode_image_bytes starlette failing_writer_library "code128" "ABC" ∅ []
    = (inl (HTTPException 500 "Failed to generate barcode: cannot open resource"),
       [call_barcode_get "code128"; call_barcode_class "ABC"; call_write ∅]))
    by reflexivity.
  split; [exact Hrun |].
  exact (@barcode_helper_raises_only_400_or_500 starlette failing_writer_library
           "code128" "ABC" ∅ [] _ _ Hrun).
Defined.

(** One byte more than version 40 holds: [make], the third call, raises and is
    the last call made. *)
Lemma qr_calls_in_order_witness :
  QRCodeRequest.validate (qr_body (Some (letters 1274)) None (Some 40))
  = inr {| QRCodeRequest.data := letters 1274; QRCodeRequest.filename := "qrcode.png";
           QRCodeRequest.fill_color := "black"; QRCodeRequest.back_color := "white";
           QRCodeRequest.version := 40; QRCodeRequest.box_size := 10;
           QRCodeRequest.border := 4 |}
  ∧ sample_post_generate_qr (qr_body (Some (letters 1274)) None (Some 40))
    = (JSONResponse 500
         (Detail "Failed to generate QR Code: Invalid version (was 41, expected 1 to 40)"),
       [call_QRCode 40 ERROR_CORRECT_H 10 4; call_add_data (letters 1274); call_make true]).
Proof.
  assert (Hv :
    QRCodeRequest.validate (qr_body (Some (letters 1274)) None (Some 40))
    = inr {| QRCodeRequest.data := letters 1274; QRCodeRequest.filename := "qrcode.png";
             QRCodeRequest.fill_color := "black"; QRCodeRequest.back_color := "white";
             QRCodeRequest.version := 40; QRCodeRequest.box_size := 10;
             QRCodeRequest.border := 4 |}) by reflexivity.
  split; [exact Hv |].
  destruct (@qr_calls_in_order starlette sample_qr_library _ _ Hv)
    as (_ & _ & _ & _ & _ & Hmake & _).
  assert (Hrun : ∃ qr0 qr1,
    @lib_QRCode sample_qr_library 40 2 10 4 = inr qr0
    ∧ @lib_add_data sample_qr_library qr0 (letters 1274) = inr qr1
    ∧ @lib_make sample_qr_library qr1 true = inl (qrcode.invalid_version 41)).
  { eexists _, _. split; [reflexivity |]. split; [reflexivity |].
    vm_compute. reflexivity. }
  destruct Hrun as (qr0 & qr1 & Hinit & Hadd & Hraise).
  exact (Hmake qr0 qr1 _ Hinit Hadd Hraise).
Defined.

(** EAN-13 with five digits: the class raises, [write] is never called, and
    the [BarcodeError] makes the response a 400. *)
Lemma barcode_calls_in_order_witness :
  BarcodeRequest.validate (barcode_body "ean13" "12345")
  = inr {| BarcodeRequest.barcode_type := "ean13"; BarcodeRequest.data := "12345";
           BarcodeRequest.filename := "barcode.png"; BarcodeRequest.options := ∅ |}
  ∧ sample_post_generate_barcode (barcode_body "ean13" "12345")
    = (JSONResponse 400
         (Detail ("Invalid data for barcode type 'ean13': EAN must have 12 digits, not 5."
                  +:+ ". Please check data format and length.")),
       [call_barcode_get "ean13"; call_barcode_class "12345"]).
Proof.
  assert (Hv :
    BarcodeRequest.validate (barcode_body "ean13" "12345")
    = inr {| BarcodeRequest.barcode_type := "ean13"; BarcodeRequest.data := "12345";
             BarcodeRequest.filename := "barcode.png"; BarcodeRequest.options := ∅ |})
    by reflexivity.
  split; [exact Hv |].
  destruct (@barcode_calls_in_order starlette sample_barcode_library _ _ Hv)
    as (_ & _ & _ & Hcalls).
  destruct Hcalls as (_ & Hclass & _); [apply py_in_elem_of; reflexivity |].
  exact (Hclass "ean13" (BarcodeError "EAN must have 12 digits, not 5.")
           eq_refl eq_refl).
Defined.


(** The stream of a QR request: the eight bytes written, position 0. *)
Lemma qr_helper_stream_is_rewound_witness :
  @_generate_qr_code_image_bytes starlette sample_qr_library "hello" "black" "white" 1 10 4 []
  = (inr {| getvalue := PNG_SIGNATURE; tell := 0 |},
     [call_QRCode 1 ERROR_CORRECT_H 10 4; call_add_data "hello"; call_make true;
      call_make_image "black" "white"; call_save "PNG"])
  ∧ ∃ qr0 qr1 qr2 img image,
      @lib_QRCode sample_qr_library 1 ERROR_CORRECT_H 10 4 = inr qr0
      ∧ @lib_add_data sample_qr_library qr0 "hello" = inr qr1
      ∧ @lib_make sample_qr_library qr1 true = inr qr2
      ∧ @lib_make_image sample_qr_library qr2 "black" "white" = inr img
      ∧ @lib_save sample_qr_library img "PNG" = (image, None)
      ∧ PNG_SIGNATURE = image
      ∧ 0%nat = 0%nat
      ∧ BytesIO_read {| getvalue := PNG_SIGNATURE; tell := 0 |} = image.
Proof.
  assert (Hrun :
    @_generate_qr_code_image_bytes starlette sample_qr_library
      "hello" "black" "white" 1 10 4 []
    = (inr {| getvalue := PNG_SIGNATURE; tell := 0 |},
       [call_QRCode 1 ERROR_CORRECT_H 10 4; call_add_data "hello"; call_make true;
        call_make_image "black" "white"; call_save "PNG"])) by reflexivity.
  split; [exact Hrun |].
  exact (@qr_helper_stream_is_rewound starlette sample_qr_library
           "hello" "black" "white" 1 10 4 [] _ _ Hrun).
Defined.

(** The stream of a barcode request without options: the signature and the
    two bytes of the text, position 0. *)
Lemma barcode_helper_stream_is_rewound_witness :
  @_generate_barcode_image_bytes starlette text_writer_library "code128" "AB" ∅ []
  = (inr {| getvalue := PNG_SIGNATURE ++ [Byte.x41; Byte.x42]; tell := 0 |},
     [call_barcode_get "code128"; call_barcode_class "AB"; call_write ∅])
  ∧ "code128" ∈ supported_barcode_types
  ∧ ∃ cls obj image,
      @lib_barcode_get text_writer_library "code128" = inr cls
      ∧ @lib_barcode_class text_writer_library cls "AB" = inr obj
      ∧ @lib_write text_writer_library obj ∅ = (image, None)
      ∧ PNG_SIGNATURE ++ [Byte.x41; Byte.x42] = image
      ∧ 0%nat = 0%nat
      ∧ BytesIO_read {| getvalue := PNG_SIGNATURE ++ [Byte.x41; Byte.x42]; tell := 0 |}
        = image.
Proof.
  assert (Hrun :
    @_generate_barcode_image_bytes starlette text_writer_library "code128" "AB" ∅ []
    = (inr {| getvalue := PNG_SIGNATURE ++ [Byte.x41; Byte.x42]; tell := 0 |},
       [call_barcode_get "code128"; call_barcode_class "AB"; call_write ∅]))
    by reflexivity.
  split; [exact Hrun |].
  exact (@barcode_helper_stream_is_rewound starlette text_writer_library
           "code128" "AB" ∅ [] _ _ Hrun).
Defined.

(** The writer fails on a valid request: 500, and the two bytes it wrote are
    gone. *)
Lemma barcode_other_fault_is_500_witness :
  BarcodeRequest.validate (barcode_body "ean13" "123456789012")
  = inr {| BarcodeRequest.barcode_type := "ean13"; BarcodeRequest.data := "123456789012";
           BarcodeRequest.filename := "barcode.png"; BarcodeRequest.options := ∅ |}
  ∧ isinstance (PyException "OSError" "cannot open resource") cls_BarcodeError = false
  ∧ @post_generate_barcode starlette failing_writer_library
      (barcode_body "ean13" "123456789012")
    = (JSONResponse 500 (Detail "Failed to generate barcode: cannot open resource"),
       [call_barcode_get "ean13"; call_barcode_class "123456789012"; call_write ∅]).
Proof.
  split; [reflexivity |]. split; [reflexivity |].
  apply (@barcode_other_fault_is_500 starlette failing_writer_library
           (barcode_body "ean13" "123456789012")
           {| BarcodeRequest.barcode_type := "ean13";
              BarcodeRequest.data := "123456789012";
              BarcodeRequest.filename := "barcode.png"; BarcodeRequest.options := ∅ |}
           (PyException "OSError" "cannot open resource")
           [call_barcode_get "ean13"; call_barcode_class "123456789012"; call_write ∅]);
    reflexivity.
Defined.

(** The 400 of EAN-13 with five digits. *)
Lemma barcode_400_means_BarcodeError_witness :
  status (sample_post_generate_barcode (barcode_body "ean13" "12345")).1 = 400
  ∧ ∃ request cause t,
      BarcodeRequest.validate (barcode_body "ean13" "12345") = inr request
      ∧ BarcodeRequest.barcode_type request ∈ supported_barcode_types
      ∧ @barcode_encoding sample_barcode_library request = (inl (BarcodeError cause), t)
      ∧ sample_post_generate_barcode (barcode_body "ean13" "12345")
        = (JSONResponse 400
             (Detail ("Invalid data for barcode type '"
                      +:+ BarcodeRequest.barcode_type request +:+ "': " +:+ cause
                      +:+ ". Please check data format and length.")), t).
Proof.
  split; [reflexivity |].
  apply (@barcode_400_means_BarcodeError starlette sample_barcode_library
           (barcode_body "ean13" "12345")).
  reflexivity.
Defined.

(** A valid QR request. *)
Lemma success_is_png_witness :
  POST_generate_qr (qr_body (Some "hello") None None) ≠ GET_root
  ∧ status (sample_app (POST_generate_qr (qr_body (Some "hello") None None))).1 = 200
  ∧ media_type (sample_app (POST_generate_qr (qr_body (Some "hello") None None))).1
    = Some "image/png"
  ∧ dom (headers_given
           (sample_app (POST_generate_qr (qr_body (Some "hello") None None))).1)
    = {[ "Content-Disposition" ]}.
Proof.
  split; [discriminate |]. split; [reflexivity |].
  apply (@success_is_png starlette sample_qr_library sample_barcode_library
           (POST_generate_qr (qr_body (Some "hello") None None)));
    [discriminate | reflexivity].
Defined.

(** The URL that does not fit version 1 fits version 3. *)
Lemma qr_fit_reaches_rendering_witness :
  QRCodeRequest.validate (qr_body (Some "https://www.example.com") None (Some 1))
  = inr {| QRCodeRequest.data := "https://www.example.com";
           QRCodeRequest.filename := "qrcode.png";
           QRCodeRequest.fill_color := "black"; QRCodeRequest.back_color := "white";
           QRCodeRequest.version := 1; QRCodeRequest.box_size := 10;
           QRCodeRequest.border := 4 |}
  ∧ qrcode.exceeds_capacity qrcode.byte_mode_bits "https://www.example.com" 1 = true
  ∧ qrcode.exceeds_capacity qrcode.byte_mode_bits "https://www.example.com" 3 = false
  ∧ ∃ t,
      (sample_post_generate_qr
         (qr_body (Some "https://www.example.com") None (Some 1))).2
      = [call_QRCode 1 ERROR_CORRECT_H 10 4; call_add_data "https://www.example.com";
         call_make true; call_make_image "black" "white"] ++ t.
Proof.
  split; [reflexivity |]. split; [reflexivity |]. split; [reflexivity |].
  apply (qr_fit_reaches_rendering starlette qrcode.byte_mode_bits qrcode.QRCode
           (λ qr _ _, inr qr) (λ _ _, (PNG_SIGNATURE, None))
           (qr_body (Some "https://www.example.com") None (Some 1))
           {| QRCodeRequest.data := "https://www.example.com";
              QRCodeRequest.filename := "qrcode.png";
              QRCodeRequest.fill_color := "black"; QRCodeRequest.back_color := "white";
              QRCodeRequest.version := 1; QRCodeRequest.box_size := 10;
              QRCodeRequest.border := 4 |} 3).
  - reflexivity.
  - intros u u'. apply byte_mode_bits_monotone.
  - simpl. lia.
  - reflexivity.
Defined.

(** The bounds are inclusive: version 40 is accepted, 41 is not. *)
Example qr_version_bounds :
  is_Some (match QRCodeRequest.validate (qr_body (Some "x") None (Some 40)) with
           | inr request => Some request
           | inl _ => None
           end)
  ∧ QRCodeRequest.validate (qr_body (Some "x") None (Some 41))
    = inl [{| loc := ["body"; "version"]; type := NotLe 40 |}].
Proof. split; [by eexists | reflexivity]. Qed.
